(** * go-pagerduty: services, integrations and service rules

    A shallow embedding of the service client (package [pagerduty], the file
    that declares [Service], [Integration], [ServiceRule] and their
    operations) and the properties of its envelope handling, request
    construction and pagination.

    Layout: the JSON data model and the decoder of [encoding/json] as far as
    the struct tags of the package use it; the records of the package; the
    client operations in a small state monad that records the requests sent;
    then the theorems.

    Conventions: a pointer is an [option] ([None] is nil); a slice is nil or
    a list; a [(value, error)] result is a pair whose error is an
    [option error]; a call returns, panics, or runs into the bound on the
    number of pages that the model gives to the paged operations. *)

From Stdlib Require Import ZArith NArith String Ascii List Bool Lia.
From stdpp Require Import base tactics option list strings gmap sorting.

Local Open Scope string_scope.
Local Open Scope Z_scope.
Local Open Scope list_scope.
Set Warnings "-register-all".

(* ===================================================================== *)
(** * Errors, results and outcomes *)
(* ===================================================================== *)

(** A Go [error] value.  [External] is an error produced by a collaborator
    (the HTTP transport, the status check of the client, the JSON decoder,
    the query encoder); [Errorf] is the value of [fmt.Errorf] on a format
    without the [%w] verb: it carries the formatted text and nothing else. *)
Inductive error : Type :=
| External (text : string)
| Errorf (text : string).

(** [err.Error()]. *)
Definition Error (e : error) : string :=
  match e with
  | External t => t
  | Errorf t => t
  end.

(** The verb [%v] applied to an [error] interface value; a nil interface
    prints as [<nil>]. *)
Definition fmt_v (e : option error) : string :=
  match e with
  | None => "<nil>"
  | Some e => Error e
  end.

Inductive result (A : Type) : Type :=
| Ok (a : A)
| Err (e : error).
Arguments Ok {A} a.
Arguments Err {A} e.

#[export] Instance result_ret : MRet result := fun _ a => Ok a.
#[export] Instance result_bind : MBind result := fun _ _ f m =>
  match m with
  | Ok a => f a
  | Err e => Err e
  end.
#[export] Instance result_fmap : FMap result := fun _ _ f m =>
  match m with
  | Ok a => Ok (f a)
  | Err e => Err e
  end.

(** What a call does: it returns, it panics (a nil dereference), or the
    model's loop bound was reached before the call returned. *)
Inductive outcome (A : Type) : Type :=
| Returns (a : A)
| Panics
| OutOfFuel.
Arguments Returns {A} a.
Arguments Panics {A}.
Arguments OutOfFuel {A}.

(* ===================================================================== *)
(** * JSON *)
(* ===================================================================== *)

(** JSON values.  An integer literal is [JNum]; any other number literal
    (fraction, exponent, negative zero) is kept as its text in [JReal]: the
    records of this package hold integers only. *)
Inductive json : Type :=
| JNull
| JBool (b : bool)
| JNum (n : Z)
| JReal (literal : string)
| JStr (s : string)
| JArr (items : list json)
| JObj (members : list (string * json)).

Definition json_SyntaxError : error := External "json: syntax error".
Definition json_UnmarshalTypeError : error := External "json: cannot unmarshal value into Go value".

(** ** Reading JSON text

    The scanner of [encoding/json] on byte strings.  [Decode] reads one
    value from the stream and leaves what follows unread.  Bytes of a string
    literal are kept as they are. *)

Definition quote : ascii := ascii_of_nat 34.
Definition backslash : ascii := ascii_of_nat 92.

Definition isSpace (c : ascii) : bool :=
  let n := nat_of_ascii c in
  (Nat.eqb n 32 || Nat.eqb n 9 || Nat.eqb n 10 || Nat.eqb n 13)%bool.

Definition isDigit (c : ascii) : bool :=
  let n := nat_of_ascii c in (Nat.leb 48 n && Nat.leb n 57)%bool.

Fixpoint skipSpace (s : string) : string :=
  match s with
  | String c s' => if isSpace c then skipSpace s' else s
  | EmptyString => s
  end.

Definition hexDigit (c : ascii) : option N :=
  let n := N_of_ascii c in
  if ((48 <=? n) && (n <=? 57))%N then Some (n - 48)%N
  else if ((97 <=? n) && (n <=? 102))%N then Some (n - 87)%N
  else if ((65 <=? n) && (n <=? 70))%N then Some (n - 55)%N
  else None.

Definition hex4 (a b c d : ascii) : option N :=
  x ← hexDigit a; y ← hexDigit b; z ← hexDigit c; w ← hexDigit d;
  Some (((x * 16 + y) * 16 + z) * 16 + w)%N.

Definition byteOf (n : N) : ascii := ascii_of_N n.

(** UTF-8 encoding of a code point. *)
Definition utf8 (cp : N) : string :=
  (if cp <? 128 then String (byteOf cp) EmptyString
   else if cp <? 2048 then
     String (byteOf (192 + cp / 64)) (String (byteOf (128 + cp mod 64)) EmptyString)
   else if cp <? 65536 then
     String (byteOf (224 + cp / 4096))
       (String (byteOf (128 + (cp / 64) mod 64))
          (String (byteOf (128 + cp mod 64)) EmptyString))
   else
     String (byteOf (240 + cp / 262144))
       (String (byteOf (128 + (cp / 4096) mod 64))
          (String (byteOf (128 + (cp / 64) mod 64))
             (String (byteOf (128 + cp mod 64)) EmptyString))))%N.

Definition isSurrogate (cp : N) : bool := ((55296 <=? cp) && (cp <? 57344))%N.

Definition simpleEscape (c : ascii) : option ascii :=
  let n := nat_of_ascii c in
  if Nat.eqb n 34 then Some quote
  else if Nat.eqb n 92 then Some backslash
  else if Nat.eqb n 47 then Some "/"%char
  else if Nat.eqb n 98 then Some (ascii_of_nat 8)
  else if Nat.eqb n 102 then Some (ascii_of_nat 12)
  else if Nat.eqb n 110 then Some (ascii_of_nat 10)
  else if Nat.eqb n 114 then Some (ascii_of_nat 13)
  else if Nat.eqb n 116 then Some (ascii_of_nat 9)
  else None.

(** The characters of a string literal, after its opening quote, up to and
    including the closing quote.  The fuel is the number of characters left. *)
Fixpoint scanString (fuel : nat) (s : string) : option (string * string) :=
  match fuel with
  | O => None
  | S fuel =>
    match s with
    | EmptyString => None
    | String c rest =>
      if Ascii.eqb c quote then Some (EmptyString, rest)
      else if Ascii.eqb c backslash then
        match rest with
        | String "u" (String h1 (String h2 (String h3 (String h4 rest')))) =>
          cp ← hex4 h1 h2 h3 h4;
          if isSurrogate cp then
            match rest' with
            | String b (String "u" (String l1 (String l2 (String l3 (String l4 rest''))))) =>
              match (if Ascii.eqb b backslash then hex4 l1 l2 l3 l4 else None) with
              | Some lo =>
                if ((cp <? 56320) && (56320 <=? lo) && (lo <? 57344))%N then
                  '(t, r) ← scanString fuel rest'';
                  Some (utf8 (65536 + (cp - 55296) * 1024 + (lo - 56320))%N +:+ t, r)
                else
                  '(t, r) ← scanString fuel rest';
                  Some (utf8 65533%N +:+ t, r)
              | None =>
                '(t, r) ← scanString fuel rest';
                Some (utf8 65533%N +:+ t, r)
              end
            | _ =>
              '(t, r) ← scanString fuel rest';
              Some (utf8 65533%N +:+ t, r)
            end
          else
            '(t, r) ← scanString fuel rest';
            Some (utf8 cp +:+ t, r)
        | String e rest' =>
          e' ← simpleEscape e;
          '(t, r) ← scanString fuel rest';
          Some (String e' t, r)
        | EmptyString => None
        end
      else if Nat.ltb (nat_of_ascii c) 32 then None
      else
        '(t, r) ← scanString fuel rest;
        Some (String c t, r)
    end
  end.

Fixpoint takeDigits (s : string) : string * string :=
  match s with
  | String c rest =>
    if isDigit c then let '(d, r) := takeDigits rest in (String c d, r)
    else (EmptyString, s)
  | EmptyString => (EmptyString, s)
  end.

Fixpoint digitsValue (acc : Z) (d : string) : Z :=
  match d with
  | String c rest => digitsValue (10 * acc + (Z.of_nat (nat_of_ascii c) - 48)) rest
  | EmptyString => acc
  end.

Definition startsWith (c : ascii) (s : string) : bool :=
  match s with
  | String c' _ => Ascii.eqb c c'
  | EmptyString => false
  end.

Definition dropFirst (s : string) : string :=
  match s with
  | String _ rest => rest
  | EmptyString => EmptyString
  end.

(** A number literal: sign, integer part, optional fraction and exponent. *)
Definition scanNumber (s : string) : option (json * string) :=
  let neg := startsWith "-" s in
  let s1 := if neg then dropFirst s else s in
  let '(int, s2) := takeDigits s1 in
  match int with
  | EmptyString => None
  | String d0 more =>
    if (Ascii.eqb d0 "0" && negb (String.eqb more EmptyString))%bool then None
    else
      let '(frac, s3) :=
        if startsWith "." s2 then
          let '(f, r) := takeDigits (dropFirst s2) in (Some f, r)
        else (None, s2) in
      let '(expo, s4) :=
        if (startsWith "e" s3 || startsWith "E" s3)%bool then
          let s3' := dropFirst s3 in
          let s3'' := if (startsWith "+" s3' || startsWith "-" s3')%bool
                      then dropFirst s3' else s3' in
          let '(e, r) := takeDigits s3'' in (Some e, r)
        else (None, s3) in
      match frac, expo with
      | Some EmptyString, _ => None
      | _, Some EmptyString => None
      | None, None =>
        let v := digitsValue 0 int in
        if (neg && (v =? 0))%bool
        then Some (JReal "-0", s4)
        else Some (JNum (if neg then - v else v), s4)
      | _, _ =>
        Some (JReal (substring 0 (String.length s - String.length s4) s), s4)
      end
  end.

Definition expect (lit : string) (v : json) (s : string) : option (json * string) :=
  if String.prefix lit s
  then Some (v, substring (String.length lit) (String.length s - String.length lit) s)
  else None.

(** One JSON value.  Every recursive call is made after at least one
    character was consumed, so a fuel above the length of the text is never
    exhausted. *)
Fixpoint scanValue (fuel : nat) (s : string) : option (json * string) :=
  match fuel with
  | O => None
  | S fuel =>
    match skipSpace s with
    | EmptyString => None
    | String c rest =>
      if Ascii.eqb c "{" then
        match skipSpace rest with
        | String "}" r => Some (JObj [], r)
        | _ => '(ms, r) ← scanMembers fuel rest; Some (JObj ms, r)
        end
      else if Ascii.eqb c "[" then
        match skipSpace rest with
        | String "]" r => Some (JArr [], r)
        | _ => '(vs, r) ← scanElements fuel rest; Some (JArr vs, r)
        end
      else if Ascii.eqb c quote then
        '(t, r) ← scanString (S (String.length rest)) rest; Some (JStr t, r)
      else if Ascii.eqb c "t" then expect "true" (JBool true) (String c rest)
      else if Ascii.eqb c "f" then expect "false" (JBool false) (String c rest)
      else if Ascii.eqb c "n" then expect "null" JNull (String c rest)
      else scanNumber (String c rest)
    end
  end
with scanMembers (fuel : nat) (s : string) : option (list (string * json) * string) :=
  match fuel with
  | O => None
  | S fuel =>
    match skipSpace s with
    | String c rest =>
      if Ascii.eqb c quote then
        '(k, r1) ← scanString (S (String.length rest)) rest;
        match skipSpace r1 with
        | String ":" r2 =>
          '(v, r3) ← scanValue fuel r2;
          match skipSpace r3 with
          | String "," r4 => '(ms, r5) ← scanMembers fuel r4; Some ((k, v) :: ms, r5)
          | String "}" r4 => Some ([(k, v)], r4)
          | _ => None
          end
        | _ => None
        end
      else None
    | EmptyString => None
    end
  end
with scanElements (fuel : nat) (s : string) : option (list json * string) :=
  match fuel with
  | O => None
  | S fuel =>
    '(v, r1) ← scanValue fuel s;
    match skipSpace r1 with
    | String "," r2 => '(vs, r3) ← scanElements fuel r2; Some (v :: vs, r3)
    | String "]" r2 => Some ([v], r2)
    | _ => None
    end
  end.

(** The first JSON value of a text. *)
Definition parseJSON (text : string) : result json :=
  match scanValue (S (String.length text)) text with
  | Some (v, _) => Ok v
  | None => Err json_SyntaxError
  end.

(** JSON texts are written with apostrophes in this file; [dq] turns each
    apostrophe into a double quote. *)
Fixpoint dq (s : string) : string :=
  match s with
  | String c rest => String (if Ascii.eqb c "'" then quote else c) (dq rest)
  | EmptyString => EmptyString
  end.


(* ===================================================================== *)
(** * Go values and their JSON form *)
(* ===================================================================== *)

(** [uint] and [int] are 64 bits wide. *)
Abbreviation uint := N (only parsing).
Abbreviation int := Z (only parsing).
Definition uintBits : Z := 64.
Definition uintAdd (a b : uint) : uint := ((a + b) mod 2 ^ 64)%N.

(** A slice is nil or holds elements; [append(s, xs...)] returns [s] itself
    when nothing is appended. *)
Inductive slice (A : Type) : Type :=
| NilSlice
| Slice (items : list A).
Arguments NilSlice {A}.
Arguments Slice {A} items.

Definition elems {A} (s : slice A) : list A :=
  match s with
  | NilSlice => []
  | Slice l => l
  end.

Definition append {A} (s : slice A) (xs : slice A) : slice A :=
  match elems xs with
  | [] => s
  | _ :: _ => Slice (elems s ++ elems xs)
  end.

(** [json.Unmarshal]: decoding a JSON value into a Go value that already
    holds something ([zero] at the start of a decode). *)
Class Unmarshal (T : Type) := {
  zero : T;
  unmarshal : json -> T -> result T;
}.

(** [json.Marshal], and the emptiness test of the [omitempty] option. *)
Class Marshal (T : Type) := {
  marshal : T -> json;
  isEmpty : T -> bool;
}.

(** Structs: the members they are written as, and the decoding of the
    members of an object into them. *)
Class StructDecode (T : Type) := {
  structZero : T;
  structDecode : list (string * json) -> T -> result T;
}.

Class StructEncode (T : Type) := {
  structMembers : T -> list (string * json);
}.

(** The decoder matches member names to fields without regard to case.
    The folding here is that of ASCII letters. *)
Definition lower (c : ascii) : ascii :=
  let n := nat_of_ascii c in
  if (Nat.leb 65 n && Nat.leb n 90)%bool then ascii_of_nat (n + 32) else c.

Fixpoint foldCase (s : string) : string :=
  match s with
  | String c rest => String (lower c) (foldCase rest)
  | EmptyString => EmptyString
  end.

Definition keyIs (name key : string) : bool := String.eqb (foldCase key) (foldCase name).

(** The value of the field called [name] after the members [ms] were decoded
    in order into a struct whose field held [cur]. *)
Fixpoint decodeField {T} `{Unmarshal T} (name : string)
    (ms : list (string * json)) (cur : T) : result T :=
  match ms with
  | [] => Ok cur
  | (k, v) :: ms' =>
    if keyIs name k then
      match unmarshal v cur with
      | Ok x => decodeField name ms' x
      | Err e => Err e
      end
    else decodeField name ms' cur
  end.

(** A field written under [key]; with [omitempty] it is left out when empty. *)
Definition member {T} `{Marshal T} (key : string) (x : T) : list (string * json) :=
  [(key, marshal x)].

Definition memberOmitEmpty {T} `{Marshal T} (key : string) (x : T) : list (string * json) :=
  if isEmpty x then [] else [(key, marshal x)].

(** The members of an embedded struct that the embedding struct promotes:
    those not hidden by a field of its own. *)
Definition promoted (own : list string) (ms : list (string * json)) : list (string * json) :=
  filter (fun kv => negb (existsb (fun n => keyIs n kv.1) own)) ms.

#[export] Instance string_unmarshal : Unmarshal string := {
  zero := EmptyString;
  unmarshal j cur :=
    match j with
    | JStr s => Ok s
    | JNull => Ok cur
    | _ => Err json_UnmarshalTypeError
    end;
}.

#[export] Instance string_marshal : Marshal string := {
  marshal s := JStr s;
  isEmpty s := String.eqb s EmptyString;
}.

#[export] Instance bool_unmarshal : Unmarshal bool := {
  zero := false;
  unmarshal j cur :=
    match j with
    | JBool b => Ok b
    | JNull => Ok cur
    | _ => Err json_UnmarshalTypeError
    end;
}.

#[export] Instance bool_marshal : Marshal bool := {
  marshal b := JBool b;
  isEmpty b := negb b;
}.

#[export] Instance uint_unmarshal : Unmarshal uint := {
  zero := 0%N;
  unmarshal j cur :=
    match j with
    | JNum z => if ((0 <=? z) && (z <? 2 ^ uintBits))%bool then Ok (Z.to_N z)
                else Err json_UnmarshalTypeError
    | JNull => Ok cur
    | _ => Err json_UnmarshalTypeError
    end;
}.

#[export] Instance uint_marshal : Marshal uint := {
  marshal n := JNum (Z.of_N n);
  isEmpty n := (n =? 0)%N;
}.

#[export] Instance int_unmarshal : Unmarshal int := {
  zero := 0;
  unmarshal j cur :=
    match j with
    | JNum z => if ((- 2 ^ (uintBits - 1) <=? z) && (z <? 2 ^ (uintBits - 1)))%bool then Ok z
                else Err json_UnmarshalTypeError
    | JNull => Ok cur
    | _ => Err json_UnmarshalTypeError
    end;
}.

#[export] Instance int_marshal : Marshal int := {
  marshal z := JNum z;
  isEmpty z := (z =? 0);
}.

(** Pointers: [None] is nil.  [null] sets the pointer to nil; any other value
    is decoded into the pointee, allocated when the pointer was nil. *)
#[export] Instance pointer_unmarshal {T} `{Unmarshal T} : Unmarshal (option T) := {
  zero := None;
  unmarshal j cur :=
    match j with
    | JNull => Ok None
    | _ => x ← unmarshal j (default zero cur); Ok (Some x)
    end;
}.

#[export] Instance pointer_marshal {T} `{Marshal T} : Marshal (option T) := {
  marshal p :=
    match p with
    | None => JNull
    | Some x => marshal x
    end;
  isEmpty p :=
    match p with
    | None => true
    | Some _ => false
    end;
}.

(** Slices: [null] gives nil, an array gives its elements, each decoded into
    a fresh element. *)
#[export] Instance slice_unmarshal {T} `{Unmarshal T} : Unmarshal (slice T) := {
  zero := NilSlice;
  unmarshal j cur :=
    match j with
    | JNull => Ok NilSlice
    | JArr js => Slice <$> mapM (M := result) (fun j => unmarshal j zero) js
    | _ => Err json_UnmarshalTypeError
    end;
}.

#[export] Instance slice_marshal {T} `{Marshal T} : Marshal (slice T) := {
  marshal s :=
    match s with
    | NilSlice => JNull
    | Slice l => JArr (map marshal l)
    end;
  isEmpty s :=
    match elems s with
    | [] => true
    | _ :: _ => false
    end;
}.

(** Structs are objects; [null] leaves the struct as it was; a struct is
    never empty for [omitempty]. *)
#[export] Instance struct_unmarshal {T} `{StructDecode T} : Unmarshal T := {
  zero := structZero;
  unmarshal j cur :=
    match j with
    | JObj ms => structDecode ms cur
    | JNull => Ok cur
    | _ => Err json_UnmarshalTypeError
    end;
}.

#[export] Instance struct_marshal {T} `{StructEncode T} : Marshal T := {
  marshal s := JObj (structMembers s);
  isEmpty _ := false;
}.

(** Maps with string keys: each member is decoded into a fresh element and
    stored under its key; members are written in key order. *)
Fixpoint decodeMap {T} `{Unmarshal T} (ms : list (string * json))
    (cur : gmap string T) : result (gmap string T) :=
  match ms with
  | [] => Ok cur
  | (k, v) :: ms' =>
    match unmarshal v zero with
    | Ok x => decodeMap ms' (<[k := x]> cur)
    | Err e => Err e
    end
  end.

#[export] Instance map_unmarshal {T} `{Unmarshal T} : Unmarshal (gmap string T) := {
  zero := ∅;
  unmarshal j cur :=
    match j with
    | JObj ms => decodeMap ms cur
    | JNull => Ok cur
    | _ => Err json_UnmarshalTypeError
    end;
}.

Definition keyLe (a b : string * json) : Prop := String.leb a.1 b.1 = true.
#[export] Instance keyLe_dec a b : Decision (keyLe a b) :=
  decide (String.leb a.1 b.1 = true).

#[export] Instance map_marshal {T} `{Marshal T} : Marshal (gmap string T) := {
  marshal m := JObj (merge_sort keyLe ((fun kv => (kv.1, marshal kv.2)) <$> map_to_list m));
  isEmpty m :=
    match map_to_list m with
    | [] => true
    | _ :: _ => false
    end;
}.

(* ===================================================================== *)
(** * Declarations of the package that live in other files *)
(* ===================================================================== *)

(** The types this file uses and does not declare, with what the code here
    relies on: [APIObject] is a struct (it is embedded in [Service] and
    [Integration]) with an [ID] field; the others are only stored, encoded
    and decoded. *)
Class Declarations := {
  APIObject : Type;
  APIObject_ID : APIObject -> string;
  APIObject_decode :: StructDecode APIObject;
  APIObject_encode :: StructEncode APIObject;
  EscalationPolicy : Type;
  EscalationPolicy_unmarshal :: Unmarshal EscalationPolicy;
  EscalationPolicy_marshal :: Marshal EscalationPolicy;
  Team : Type;
  Team_unmarshal :: Unmarshal Team;
  Team_marshal :: Marshal Team;
  RuleConditions : Type;
  RuleConditions_unmarshal :: Unmarshal RuleConditions;
  RuleConditions_marshal :: Marshal RuleConditions;
  RuleTimeFrame : Type;
  RuleTimeFrame_unmarshal :: Unmarshal RuleTimeFrame;
  RuleTimeFrame_marshal :: Marshal RuleTimeFrame;
  RuleActionParameter : Type;
  RuleActionParameter_unmarshal :: Unmarshal RuleActionParameter;
  RuleActionParameter_marshal :: Marshal RuleActionParameter;
  RuleActionExtraction : Type;
  RuleActionExtraction_unmarshal :: Unmarshal RuleActionExtraction;
  RuleActionExtraction_marshal :: Marshal RuleActionExtraction;
  RuleActionSuppress : Type;
  RuleActionSuppress_unmarshal :: Unmarshal RuleActionSuppress;
  RuleActionSuppress_marshal :: Marshal RuleActionSuppress;
  RuleActionSuspend : Type;
  RuleActionSuspend_unmarshal :: Unmarshal RuleActionSuspend;
  RuleActionSuspend_marshal :: Marshal RuleActionSuspend;
}.

(** Modelled from the spec: [APIListObject], the page metadata, is declared in
    another file.  The handlers here build it from [More], [Offset] and
    [Limit]; the spec lists the tuple offset, limit, more, total and the
    members [offset], [limit], [more], [total] of a list response. *)
Record APIListObject := {
  APIListObject_Limit : uint;
  APIListObject_Offset : uint;
  APIListObject_More : bool;
  APIListObject_Total : uint;
}.

#[export] Instance APIListObject_decode : StructDecode APIListObject := {
  structZero := {| APIListObject_Limit := 0; APIListObject_Offset := 0;
                   APIListObject_More := false; APIListObject_Total := 0 |};
  structDecode ms cur :=
    limit ← decodeField "limit" ms (APIListObject_Limit cur);
    offset ← decodeField "offset" ms (APIListObject_Offset cur);
    more ← decodeField "more" ms (APIListObject_More cur);
    total ← decodeField "total" ms (APIListObject_Total cur);
    Ok {| APIListObject_Limit := limit; APIListObject_Offset := offset;
          APIListObject_More := more; APIListObject_Total := total |};
}.

(* ===================================================================== *)
(** * The records of the package *)
(* ===================================================================== *)

Section Records.
Context {D : Declarations}.

(** [Integration]: an endpoint that generates events. *)
Record Integration := {
  Integration_APIObject : APIObject;
  Integration_Name : string;
  Integration_Service : option APIObject;
  Integration_CreatedAt : string;
  Integration_Vendor : option APIObject;
  Integration_Type : string;
  Integration_IntegrationKey : string;
  Integration_IntegrationEmail : string;
}.

Definition Integration_keys : list string :=
  ["name"; "service"; "created_at"; "vendor"; "type"; "integration_key";
   "integration_email"].

#[export] Instance Integration_decode : StructDecode Integration := {
  structZero :=
    {| Integration_APIObject := structZero; Integration_Name := EmptyString;
       Integration_Service := None; Integration_CreatedAt := EmptyString;
       Integration_Vendor := None; Integration_Type := EmptyString;
       Integration_IntegrationKey := EmptyString;
       Integration_IntegrationEmail := EmptyString |};
  structDecode ms cur :=
    obj ← structDecode (promoted Integration_keys ms) (Integration_APIObject cur);
    name ← decodeField "name" ms (Integration_Name cur);
    service ← decodeField "service" ms (Integration_Service cur);
    created ← decodeField "created_at" ms (Integration_CreatedAt cur);
    vendor ← decodeField "vendor" ms (Integration_Vendor cur);
    type ← decodeField "type" ms (Integration_Type cur);
    key ← decodeField "integration_key" ms (Integration_IntegrationKey cur);
    email ← decodeField "integration_email" ms (Integration_IntegrationEmail cur);
    Ok {| Integration_APIObject := obj; Integration_Name := name;
          Integration_Service := service; Integration_CreatedAt := created;
          Integration_Vendor := vendor; Integration_Type := type;
          Integration_IntegrationKey := key;
          Integration_IntegrationEmail := email |};
}.

#[export] Instance Integration_encode : StructEncode Integration := {
  structMembers i :=
    promoted Integration_keys (structMembers (Integration_APIObject i))
    ++ memberOmitEmpty "name" (Integration_Name i)
    ++ memberOmitEmpty "service" (Integration_Service i)
    ++ memberOmitEmpty "created_at" (Integration_CreatedAt i)
    ++ memberOmitEmpty "vendor" (Integration_Vendor i)
    ++ memberOmitEmpty "type" (Integration_Type i)
    ++ memberOmitEmpty "integration_key" (Integration_IntegrationKey i)
    ++ memberOmitEmpty "integration_email" (Integration_IntegrationEmail i);
}.

(** [InlineModel]: when a scheduled action will occur. *)
Record InlineModel := {
  InlineModel_Type : string;
  InlineModel_Name : string;
}.

#[export] Instance InlineModel_decode : StructDecode InlineModel := {
  structZero := {| InlineModel_Type := EmptyString; InlineModel_Name := EmptyString |};
  structDecode ms cur :=
    type ← decodeField "type" ms (InlineModel_Type cur);
    name ← decodeField "name" ms (InlineModel_Name cur);
    Ok {| InlineModel_Type := type; InlineModel_Name := name |};
}.

#[export] Instance InlineModel_encode : StructEncode InlineModel := {
  structMembers m :=
    memberOmitEmpty "type" (InlineModel_Type m)
    ++ memberOmitEmpty "name" (InlineModel_Name m);
}.

(** [ScheduledAction]: [to_urgency] has no [omitempty]. *)
Record ScheduledAction := {
  ScheduledAction_Type : string;
  ScheduledAction_At : InlineModel;
  ScheduledAction_ToUrgency : string;
}.

#[export] Instance ScheduledAction_decode : StructDecode ScheduledAction := {
  structZero := {| ScheduledAction_Type := EmptyString; ScheduledAction_At := structZero;
                   ScheduledAction_ToUrgency := EmptyString |};
  structDecode ms cur :=
    type ← decodeField "type" ms (ScheduledAction_Type cur);
    at_ ← decodeField "at" ms (ScheduledAction_At cur);
    urgency ← decodeField "to_urgency" ms (ScheduledAction_ToUrgency cur);
    Ok {| ScheduledAction_Type := type; ScheduledAction_At := at_;
          ScheduledAction_ToUrgency := urgency |};
}.

#[export] Instance ScheduledAction_encode : StructEncode ScheduledAction := {
  structMembers a :=
    memberOmitEmpty "type" (ScheduledAction_Type a)
    ++ memberOmitEmpty "at" (ScheduledAction_At a)
    ++ member "to_urgency" (ScheduledAction_ToUrgency a);
}.

(** [IncidentUrgencyType]: the urgency during or outside support hours. *)
Record IncidentUrgencyType := {
  IncidentUrgencyType_Type : string;
  IncidentUrgencyType_Urgency : string;
}.

#[export] Instance IncidentUrgencyType_decode : StructDecode IncidentUrgencyType := {
  structZero := {| IncidentUrgencyType_Type := EmptyString;
                   IncidentUrgencyType_Urgency := EmptyString |};
  structDecode ms cur :=
    type ← decodeField "type" ms (IncidentUrgencyType_Type cur);
    urgency ← decodeField "urgency" ms (IncidentUrgencyType_Urgency cur);
    Ok {| IncidentUrgencyType_Type := type; IncidentUrgencyType_Urgency := urgency |};
}.

#[export] Instance IncidentUrgencyType_encode : StructEncode IncidentUrgencyType := {
  structMembers t :=
    memberOmitEmpty "type" (IncidentUrgencyType_Type t)
    ++ memberOmitEmpty "urgency" (IncidentUrgencyType_Urgency t);
}.

(** [SupportHours]: the support hours of a service. *)
Record SupportHours := {
  SupportHours_Type : string;
  SupportHours_Timezone : string;
  SupportHours_StartTime : string;
  SupportHours_EndTime : string;
  SupportHours_DaysOfWeek : slice uint;
}.

#[export] Instance SupportHours_decode : StructDecode SupportHours := {
  structZero := {| SupportHours_Type := EmptyString; SupportHours_Timezone := EmptyString;
                   SupportHours_StartTime := EmptyString; SupportHours_EndTime := EmptyString;
                   SupportHours_DaysOfWeek := NilSlice |};
  structDecode ms cur :=
    type ← decodeField "type" ms (SupportHours_Type cur);
    zone ← decodeField "time_zone" ms (SupportHours_Timezone cur);
    start ← decodeField "start_time" ms (SupportHours_StartTime cur);
    stop ← decodeField "end_time" ms (SupportHours_EndTime cur);
    days ← decodeField "days_of_week" ms (SupportHours_DaysOfWeek cur);
    Ok {| SupportHours_Type := type; SupportHours_Timezone := zone;
          SupportHours_StartTime := start; SupportHours_EndTime := stop;
          SupportHours_DaysOfWeek := days |};
}.

#[export] Instance SupportHours_encode : StructEncode SupportHours := {
  structMembers h :=
    memberOmitEmpty "type" (SupportHours_Type h)
    ++ memberOmitEmpty "time_zone" (SupportHours_Timezone h)
    ++ memberOmitEmpty "start_time" (SupportHours_StartTime h)
    ++ memberOmitEmpty "end_time" (SupportHours_EndTime h)
    ++ memberOmitEmpty "days_of_week" (SupportHours_DaysOfWeek h);
}.

(** [IncidentUrgencyRule]: the default urgency for new incidents. *)
Record IncidentUrgencyRule := {
  IncidentUrgencyRule_Type : string;
  IncidentUrgencyRule_Urgency : string;
  IncidentUrgencyRule_DuringSupportHours : option IncidentUrgencyType;
  IncidentUrgencyRule_OutsideSupportHours : option IncidentUrgencyType;
}.

#[export] Instance IncidentUrgencyRule_decode : StructDecode IncidentUrgencyRule := {
  structZero := {| IncidentUrgencyRule_Type := EmptyString;
                   IncidentUrgencyRule_Urgency := EmptyString;
                   IncidentUrgencyRule_DuringSupportHours := None;
                   IncidentUrgencyRule_OutsideSupportHours := None |};
  structDecode ms cur :=
    type ← decodeField "type" ms (IncidentUrgencyRule_Type cur);
    urgency ← decodeField "urgency" ms (IncidentUrgencyRule_Urgency cur);
    during ← decodeField "during_support_hours" ms (IncidentUrgencyRule_DuringSupportHours cur);
    outside ← decodeField "outside_support_hours" ms (IncidentUrgencyRule_OutsideSupportHours cur);
    Ok {| IncidentUrgencyRule_Type := type; IncidentUrgencyRule_Urgency := urgency;
          IncidentUrgencyRule_DuringSupportHours := during;
          IncidentUrgencyRule_OutsideSupportHours := outside |};
}.

#[export] Instance IncidentUrgencyRule_encode : StructEncode IncidentUrgencyRule := {
  structMembers r :=
    memberOmitEmpty "type" (IncidentUrgencyRule_Type r)
    ++ memberOmitEmpty "urgency" (IncidentUrgencyRule_Urgency r)
    ++ memberOmitEmpty "during_support_hours" (IncidentUrgencyRule_DuringSupportHours r)
    ++ memberOmitEmpty "outside_support_hours" (IncidentUrgencyRule_OutsideSupportHours r);
}.

(** [ServiceRuleActions]: the actions of a rule. *)
Record ServiceRuleActions := {
  ServiceRuleActions_Annotate : option RuleActionParameter;
  ServiceRuleActions_EventAction : option RuleActionParameter;
  ServiceRuleActions_Extractions : slice (option RuleActionExtraction);
  ServiceRuleActions_Priority : option RuleActionParameter;
  ServiceRuleActions_Severity : option RuleActionParameter;
  ServiceRuleActions_Suppress : option RuleActionSuppress;
  ServiceRuleActions_Suspend : option RuleActionSuspend;
}.

#[export] Instance ServiceRuleActions_decode : StructDecode ServiceRuleActions := {
  structZero :=
    {| ServiceRuleActions_Annotate := None; ServiceRuleActions_EventAction := None;
       ServiceRuleActions_Extractions := NilSlice; ServiceRuleActions_Priority := None;
       ServiceRuleActions_Severity := None; ServiceRuleActions_Suppress := None;
       ServiceRuleActions_Suspend := None |};
  structDecode ms cur :=
    annotate ← decodeField "annotate" ms (ServiceRuleActions_Annotate cur);
    action ← decodeField "event_action" ms (ServiceRuleActions_EventAction cur);
    extractions ← decodeField "extractions" ms (ServiceRuleActions_Extractions cur);
    priority ← decodeField "priority" ms (ServiceRuleActions_Priority cur);
    severity ← decodeField "severity" ms (ServiceRuleActions_Severity cur);
    suppress ← decodeField "suppress" ms (ServiceRuleActions_Suppress cur);
    suspend ← decodeField "suspend" ms (ServiceRuleActions_Suspend cur);
    Ok {| ServiceRuleActions_Annotate := annotate; ServiceRuleActions_EventAction := action;
          ServiceRuleActions_Extractions := extractions;
          ServiceRuleActions_Priority := priority; ServiceRuleActions_Severity := severity;
          ServiceRuleActions_Suppress := suppress; ServiceRuleActions_Suspend := suspend |};
}.

#[export] Instance ServiceRuleActions_encode : StructEncode ServiceRuleActions := {
  structMembers a :=
    memberOmitEmpty "annotate" (ServiceRuleActions_Annotate a)
    ++ memberOmitEmpty "event_action" (ServiceRuleActions_EventAction a)
    ++ memberOmitEmpty "extractions" (ServiceRuleActions_Extractions a)
    ++ memberOmitEmpty "priority" (ServiceRuleActions_Priority a)
    ++ memberOmitEmpty "severity" (ServiceRuleActions_Severity a)
    ++ memberOmitEmpty "suppress" (ServiceRuleActions_Suppress a)
    ++ memberOmitEmpty "suspend" (ServiceRuleActions_Suspend a);
}.

(** [ServiceRule]: a rule of a service. *)
Record ServiceRule := {
  ServiceRule_ID : string;
  ServiceRule_Self : string;
  ServiceRule_Disabled : bool;
  ServiceRule_Conditions : option RuleConditions;
  ServiceRule_TimeFrame : option RuleTimeFrame;
  ServiceRule_Position : option int;
  ServiceRule_Actions : option ServiceRuleActions;
}.

#[export] Instance ServiceRule_decode : StructDecode ServiceRule := {
  structZero :=
    {| ServiceRule_ID := EmptyString; ServiceRule_Self := EmptyString;
       ServiceRule_Disabled := false; ServiceRule_Conditions := None;
       ServiceRule_TimeFrame := None; ServiceRule_Position := None;
       ServiceRule_Actions := None |};
  structDecode ms cur :=
    id ← decodeField "id" ms (ServiceRule_ID cur);
    self ← decodeField "self" ms (ServiceRule_Self cur);
    disabled ← decodeField "disabled" ms (ServiceRule_Disabled cur);
    conditions ← decodeField "conditions" ms (ServiceRule_Conditions cur);
    frame ← decodeField "time_frame" ms (ServiceRule_TimeFrame cur);
    position ← decodeField "position" ms (ServiceRule_Position cur);
    actions ← decodeField "actions" ms (ServiceRule_Actions cur);
    Ok {| ServiceRule_ID := id; ServiceRule_Self := self; ServiceRule_Disabled := disabled;
          ServiceRule_Conditions := conditions; ServiceRule_TimeFrame := frame;
          ServiceRule_Position := position; ServiceRule_Actions := actions |};
}.

#[export] Instance ServiceRule_encode : StructEncode ServiceRule := {
  structMembers r :=
    memberOmitEmpty "id" (ServiceRule_ID r)
    ++ memberOmitEmpty "self" (ServiceRule_Self r)
    ++ memberOmitEmpty "disabled" (ServiceRule_Disabled r)
    ++ memberOmitEmpty "conditions" (ServiceRule_Conditions r)
    ++ memberOmitEmpty "time_frame" (ServiceRule_TimeFrame r)
    ++ memberOmitEmpty "position" (ServiceRule_Position r)
    ++ memberOmitEmpty "actions" (ServiceRule_Actions r);
}.

(** [ListServiceRulesResponse]: a list of rules in a service. *)
Record ListServiceRulesResponse := {
  ListServiceRulesResponse_Offset : uint;
  ListServiceRulesResponse_Limit : uint;
  ListServiceRulesResponse_More : bool;
  ListServiceRulesResponse_Total : uint;
  ListServiceRulesResponse_Rules : slice (option ServiceRule);
}.

#[export] Instance ListServiceRulesResponse_decode : StructDecode ListServiceRulesResponse := {
  structZero :=
    {| ListServiceRulesResponse_Offset := 0; ListServiceRulesResponse_Limit := 0;
       ListServiceRulesResponse_More := false; ListServiceRulesResponse_Total := 0;
       ListServiceRulesResponse_Rules := NilSlice |};
  structDecode ms cur :=
    offset ← decodeField "offset" ms (ListServiceRulesResponse_Offset cur);
    limit ← decodeField "limit" ms (ListServiceRulesResponse_Limit cur);
    more ← decodeField "more" ms (ListServiceRulesResponse_More cur);
    total ← decodeField "total" ms (ListServiceRulesResponse_Total cur);
    rules ← decodeField "rules" ms (ListServiceRulesResponse_Rules cur);
    Ok {| ListServiceRulesResponse_Offset := offset; ListServiceRulesResponse_Limit := limit;
          ListServiceRulesResponse_More := more; ListServiceRulesResponse_Total := total;
          ListServiceRulesResponse_Rules := rules |};
}.

(** [AlertGroupParamsConfig]: the config object of [alert_grouping_parameters]. *)
Record AlertGroupParamsConfig := {
  AlertGroupParamsConfig_Timeout : uint;
  AlertGroupParamsConfig_Aggregate : string;
  AlertGroupParamsConfig_Fields : slice string;
}.

#[export] Instance AlertGroupParamsConfig_decode : StructDecode AlertGroupParamsConfig := {
  structZero := {| AlertGroupParamsConfig_Timeout := 0;
                   AlertGroupParamsConfig_Aggregate := EmptyString;
                   AlertGroupParamsConfig_Fields := NilSlice |};
  structDecode ms cur :=
    timeout ← decodeField "timeout" ms (AlertGroupParamsConfig_Timeout cur);
    aggregate ← decodeField "aggregate" ms (AlertGroupParamsConfig_Aggregate cur);
    fields ← decodeField "fields" ms (AlertGroupParamsConfig_Fields cur);
    Ok {| AlertGroupParamsConfig_Timeout := timeout;
          AlertGroupParamsConfig_Aggregate := aggregate;
          AlertGroupParamsConfig_Fields := fields |};
}.

#[export] Instance AlertGroupParamsConfig_encode : StructEncode AlertGroupParamsConfig := {
  structMembers c :=
    memberOmitEmpty "timeout" (AlertGroupParamsConfig_Timeout c)
    ++ memberOmitEmpty "aggregate" (AlertGroupParamsConfig_Aggregate c)
    ++ memberOmitEmpty "fields" (AlertGroupParamsConfig_Fields c);
}.

(** [AlertGroupingParameters]: neither member has [omitempty]. *)
Record AlertGroupingParameters := {
  AlertGroupingParameters_Type : string;
  AlertGroupingParameters_Config : AlertGroupParamsConfig;
}.

#[export] Instance AlertGroupingParameters_decode : StructDecode AlertGroupingParameters := {
  structZero := {| AlertGroupingParameters_Type := EmptyString;
                   AlertGroupingParameters_Config := structZero |};
  structDecode ms cur :=
    type ← decodeField "type" ms (AlertGroupingParameters_Type cur);
    config ← decodeField "config" ms (AlertGroupingParameters_Config cur);
    Ok {| AlertGroupingParameters_Type := type; AlertGroupingParameters_Config := config |};
}.

#[export] Instance AlertGroupingParameters_encode : StructEncode AlertGroupingParameters := {
  structMembers p :=
    member "type" (AlertGroupingParameters_Type p)
    ++ member "config" (AlertGroupingParameters_Config p);
}.

(** [Service]: something you monitor. *)
Record Service := {
  Service_APIObject : APIObject;
  Service_Name : string;
  Service_Description : string;
  Service_AutoResolveTimeout : option uint;
  Service_AcknowledgementTimeout : option uint;
  Service_CreateAt : string;
  Service_Status : string;
  Service_LastIncidentTimestamp : string;
  Service_Integrations : slice Integration;
  Service_EscalationPolicy : EscalationPolicy;
  Service_Teams : slice Team;
  Service_IncidentUrgencyRule : option IncidentUrgencyRule;
  Service_SupportHours : option SupportHours;
  Service_ScheduledActions : slice ScheduledAction;
  Service_AlertCreation : string;
  Service_AlertGrouping : string;
  Service_AlertGroupingTimeout : option uint;
  Service_AlertGroupingParameters : option AlertGroupingParameters;
}.

(** [s.ID] and [i.ID]: the field promoted from the embedded [APIObject]. *)
Definition Service_ID (s : Service) : string := APIObject_ID (Service_APIObject s).
Definition Integration_ID (i : Integration) : string := APIObject_ID (Integration_APIObject i).

Definition Service_keys : list string :=
  ["name"; "description"; "auto_resolve_timeout"; "acknowledgement_timeout";
   "created_at"; "status"; "last_incident_timestamp"; "integrations";
   "escalation_policy"; "teams"; "incident_urgency_rule"; "support_hours";
   "scheduled_actions"; "alert_creation"; "alert_grouping";
   "alert_grouping_timeout"; "alert_grouping_parameters"].

#[export] Instance Service_decode : StructDecode Service := {
  structZero :=
    {| Service_APIObject := structZero; Service_Name := EmptyString;
       Service_Description := EmptyString; Service_AutoResolveTimeout := None;
       Service_AcknowledgementTimeout := None; Service_CreateAt := EmptyString;
       Service_Status := EmptyString; Service_LastIncidentTimestamp := EmptyString;
       Service_Integrations := NilSlice; Service_EscalationPolicy := zero;
       Service_Teams := NilSlice; Service_IncidentUrgencyRule := None;
       Service_SupportHours := None; Service_ScheduledActions := NilSlice;
       Service_AlertCreation := EmptyString; Service_AlertGrouping := EmptyString;
       Service_AlertGroupingTimeout := None; Service_AlertGroupingParameters := None |};
  structDecode ms cur :=
    obj ← structDecode (promoted Service_keys ms) (Service_APIObject cur);
    name ← decodeField "name" ms (Service_Name cur);
    description ← decodeField "description" ms (Service_Description cur);
    resolve ← decodeField "auto_resolve_timeout" ms (Service_AutoResolveTimeout cur);
    ack ← decodeField "acknowledgement_timeout" ms (Service_AcknowledgementTimeout cur);
    created ← decodeField "created_at" ms (Service_CreateAt cur);
    status ← decodeField "status" ms (Service_Status cur);
    last ← decodeField "last_incident_timestamp" ms (Service_LastIncidentTimestamp cur);
    integrations ← decodeField "integrations" ms (Service_Integrations cur);
    policy ← decodeField "escalation_policy" ms (Service_EscalationPolicy cur);
    teams ← decodeField "teams" ms (Service_Teams cur);
    urgency ← decodeField "incident_urgency_rule" ms (Service_IncidentUrgencyRule cur);
    hours ← decodeField "support_hours" ms (Service_SupportHours cur);
    actions ← decodeField "scheduled_actions" ms (Service_ScheduledActions cur);
    creation ← decodeField "alert_creation" ms (Service_AlertCreation cur);
    grouping ← decodeField "alert_grouping" ms (Service_AlertGrouping cur);
    gtimeout ← decodeField "alert_grouping_timeout" ms (Service_AlertGroupingTimeout cur);
    gparams ← decodeField "alert_grouping_parameters" ms (Service_AlertGroupingParameters cur);
    Ok {| Service_APIObject := obj; Service_Name := name;
          Service_Description := description; Service_AutoResolveTimeout := resolve;
          Service_AcknowledgementTimeout := ack; Service_CreateAt := created;
          Service_Status := status; Service_LastIncidentTimestamp := last;
          Service_Integrations := integrations; Service_EscalationPolicy := policy;
          Service_Teams := teams; Service_IncidentUrgencyRule := urgency;
          Service_SupportHours := hours; Service_ScheduledActions := actions;
          Service_AlertCreation := creation; Service_AlertGrouping := grouping;
          Service_AlertGroupingTimeout := gtimeout;
          Service_AlertGroupingParameters := gparams |};
}.

#[export] Instance Service_encode : StructEncode Service := {
  structMembers s :=
    promoted Service_keys (structMembers (Service_APIObject s))
    ++ memberOmitEmpty "name" (Service_Name s)
    ++ memberOmitEmpty "description" (Service_Description s)
    ++ memberOmitEmpty "auto_resolve_timeout" (Service_AutoResolveTimeout s)
    ++ memberOmitEmpty "acknowledgement_timeout" (Service_AcknowledgementTimeout s)
    ++ memberOmitEmpty "created_at" (Service_CreateAt s)
    ++ memberOmitEmpty "status" (Service_Status s)
    ++ memberOmitEmpty "last_incident_timestamp" (Service_LastIncidentTimestamp s)
    ++ memberOmitEmpty "integrations" (Service_Integrations s)
    ++ memberOmitEmpty "escalation_policy" (Service_EscalationPolicy s)
    ++ memberOmitEmpty "teams" (Service_Teams s)
    ++ memberOmitEmpty "incident_urgency_rule" (Service_IncidentUrgencyRule s)
    ++ memberOmitEmpty "support_hours" (Service_SupportHours s)
    ++ memberOmitEmpty "scheduled_actions" (Service_ScheduledActions s)
    ++ memberOmitEmpty "alert_creation" (Service_AlertCreation s)
    ++ memberOmitEmpty "alert_grouping" (Service_AlertGrouping s)
    ++ memberOmitEmpty "alert_grouping_timeout" (Service_AlertGroupingTimeout s)
    ++ memberOmitEmpty "alert_grouping_parameters" (Service_AlertGroupingParameters s);
}.

(** [ListServiceOptions]: the options of the ListServices endpoint. *)
Record ListServiceOptions := {
  ListServiceOptions_APIListObject : APIListObject;
  ListServiceOptions_TeamIDs : slice string;
  ListServiceOptions_TimeZone : string;
  ListServiceOptions_SortBy : string;
  ListServiceOptions_Query : string;
  ListServiceOptions_Includes : slice string;
}.

(** [ListServiceResponse]: [Services] has no tag, so its member is named
    after the field. *)
Record ListServiceResponse := {
  ListServiceResponse_APIListObject : APIListObject;
  ListServiceResponse_Services : slice Service;
}.

#[export] Instance ListServiceResponse_decode : StructDecode ListServiceResponse := {
  structZero := {| ListServiceResponse_APIListObject := structZero;
                   ListServiceResponse_Services := NilSlice |};
  structDecode ms cur :=
    page ← structDecode (promoted ["Services"] ms) (ListServiceResponse_APIListObject cur);
    services ← decodeField "Services" ms (ListServiceResponse_Services cur);
    Ok {| ListServiceResponse_APIListObject := page;
          ListServiceResponse_Services := services |};
}.

Record GetServiceOptions := {
  GetServiceOptions_Includes : slice string;
}.

Record GetIntegrationOptions := {
  GetIntegrationOptions_Includes : slice string;
}.

End Records.

(* ===================================================================== *)
(** * The client *)
(* ===================================================================== *)

(** An HTTP response as far as this file reads it. *)
Record Response := {
  Response_Status : string;
  Response_Body : string;
}.

Inductive Method : Type := GET | POST | PUT | DELETE.

(** The query encoder, [github.com/google/go-querystring/query] and
    [net/url]: [query.Values] takes any value and returns the values with an
    error; [Encode] writes them as a query string. *)
Class QueryEncoder (Input : Type) := {
  Values : Type;
  query_Values : Input -> Values * option error;
  Values_Encode : Values -> string;
}.

Section Client.
Context {D : Declarations}.

(** The values handed to [post] and [put] as the request body. *)
Inductive Payload : Type :=
| ServiceMap (data : gmap string Service)
| ServiceBody (s : Service)
| IntegrationMap (data : gmap string Integration)
| IntegrationValue (i : Integration)
| ServiceRuleMap (data : gmap string (option ServiceRule)).

(** The JSON value of a request body, as the client marshals it.
    [ServiceBody] is the anonymous struct of [UpdateService], whose only
    field carries the tag ["service,omitempty"]. *)
Definition marshalPayload (p : Payload) : json :=
  match p with
  | ServiceMap data => marshal data
  | ServiceBody s => JObj (memberOmitEmpty "service" s)
  | IntegrationMap data => marshal data
  | IntegrationValue i => marshal i
  | ServiceRuleMap data => marshal data
  end.

(** A request.  [Request_Offset] is the page position that [pagedGet] asks
    for; the other operations leave it unset. *)
Record Request := {
  Request_Method : Method;
  Request_Path : string;
  Request_Offset : option uint;
  Request_Body : option Payload;
}.

(** The values of the [interface{}] argument of [query.Values] in this file. *)
Inductive QueryInput : Type :=
| OfListServiceOptions (o : ListServiceOptions)
| OfGetServiceOptions (o : option GetServiceOptions)
| OfGetIntegrationOptions (o : GetIntegrationOptions).

(** Modelled from the spec: the client and its methods [get], [post], [put],
    [delete], [decodeJSON] and [pagedGet] are declared in another file.  The
    spec describes the client as a collaborator with a get/post/put/delete
    capability and a JSON decode capability, whose failures (transport,
    non-2xx status) come back as an error value.  Here the client answers a
    request, given the requests already sent, with a response pointer (nil
    or not) and an error, the pair the methods return. *)
Record Client := {
  Client_do : list Request -> Request -> option Response * option error;
}.

(** A call: it may send requests, which are appended to the record of
    requests sent. *)
Definition Call (A : Type) : Type := list Request -> outcome A * list Request.

Definition callRet {A} (a : A) : Call A := fun sent => (Returns a, sent).

Definition callBind {A B} (m : Call A) (k : A -> Call B) : Call B :=
  fun sent =>
    match m sent with
    | (Returns a, sent') => k a sent'
    | (Panics, sent') => (Panics, sent')
    | (OutOfFuel, sent') => (OutOfFuel, sent')
    end.

Definition callLift {A} (o : outcome A) : Call A := fun sent => (o, sent).

(** Sending a request: the client's answer, and the request recorded. *)
Definition send (c : Client) (req : Request) : Call (option Response * option error) :=
  fun sent => (Returns (Client_do c sent req), sent ++ [req]).

(** Modelled from the spec: [get], [post], [put] and [delete] send one
    request with the method of their name, the path and, for [post] and
    [put], the body.  Their context argument and the headers argument of
    [post] and [put] (nil in this file) are left out. *)
Definition get (c : Client) (path : string) : Call (option Response * option error) :=
  send c {| Request_Method := GET; Request_Path := path;
            Request_Offset := None; Request_Body := None |}.

Definition post (c : Client) (path : string) (payload : Payload)
  : Call (option Response * option error) :=
  send c {| Request_Method := POST; Request_Path := path;
            Request_Offset := None; Request_Body := Some payload |}.

Definition put (c : Client) (path : string) (payload : Payload)
  : Call (option Response * option error) :=
  send c {| Request_Method := PUT; Request_Path := path;
            Request_Offset := None; Request_Body := Some payload |}.

Definition delete (c : Client) (path : string) : Call (option Response * option error) :=
  send c {| Request_Method := DELETE; Request_Path := path;
            Request_Offset := None; Request_Body := None |}.

(** Modelled from the spec: [decodeJSON] decodes the JSON body of the
    response into the target.  It reads the body of the response, so a nil
    response is a nil dereference. *)
Definition decodeJSON {T} `{Unmarshal T} (c : Client) (resp : option Response)
    (target : T) : outcome (result T) :=
  match resp with
  | None => Panics
  | Some r =>
    Returns (match parseJSON (Response_Body r) with
             | Ok j => unmarshal j target
             | Err e => Err e
             end)
  end.

Definition outcomeBind {A B} (o : outcome A) (k : A -> outcome B) : outcome B :=
  match o with
  | Returns a => k a
  | Panics => Panics
  | OutOfFuel => OutOfFuel
  end.

(** Modelled from the spec: [pagedGet] calls the endpoint repeatedly, from
    offset 0 and then at the previous page's offset plus its limit, until a
    page reports no more pages; it stops at the first error of the request
    or of the handler.  The handler's closure variable is passed as [acc].
    [fuel] bounds the number of pages requested. *)
Fixpoint pagedGet {S : Type} (fuel : nat) (c : Client) (basePath : string)
    (handler : option Response -> S -> outcome (S * (APIListObject * option error)))
    (nextOffset : uint) (acc : S) : Call (S * option error) :=
  match fuel with
  | O => callLift OutOfFuel
  | Datatypes.S fuel' =>
    callBind
      (send c {| Request_Method := GET; Request_Path := basePath;
                 Request_Offset := Some nextOffset; Request_Body := None |})
      (fun '(response, err) =>
         match err with
         | Some e => callRet (acc, Some e)
         | None =>
           callBind (callLift (handler response acc))
             (fun '(acc', (state, err)) =>
                match err with
                | Some e => callRet (acc', Some e)
                | None =>
                  if APIListObject_More state
                  then pagedGet fuel' c basePath handler
                         (uintAdd (APIListObject_Offset state) (APIListObject_Limit state))
                         acc'
                  else callRet (acc', None)
                end)
         end)
  end.

(** ** Unwrapping the envelope of a response *)

Definition getServiceRuleFromResponse (c : Client) (resp : option Response)
    (err : option error)
  : outcome (option ServiceRule * option Response * option error) :=
  match err with
  | Some e => Returns (None, None, Some e)
  | None =>
    outcomeBind (decodeJSON c resp (∅ : gmap string ServiceRule)) (fun decoded =>
      match decoded with
      | Err dErr =>
        Returns (None, None,
                 Some (Errorf ("Could not decode JSON response: " +:+ fmt_v (Some dErr))))
      | Ok target =>
        let rootNode := "rule" in
        match target !! rootNode with
        | None =>
          Returns (None, None,
                   Some (Errorf ("JSON response does not have " +:+ rootNode +:+ " field")))
        | Some t => Returns (Some t, resp, None)
        end
      end)
  end.

(** In the error branch the body and the status of the response are read for
    a log entry (the entry itself is not modelled): with a nil response this
    is a nil dereference. *)
Definition getServiceFromResponse (c : Client) (resp : option Response)
    (err : option error) : outcome (option Service * option error) :=
  match err with
  | Some e =>
    match resp with
    | None => Panics
    | Some r => Returns (None, Some e)
    end
  | None =>
    outcomeBind (decodeJSON c resp (∅ : gmap string Service)) (fun decoded =>
      match decoded with
      | Err dErr =>
        Returns (None,
                 Some (Errorf ("Could not decode JSON response: " +:+ fmt_v (Some dErr))))
      | Ok target =>
        let rootNode := "service" in
        match target !! rootNode with
        | None =>
          Returns (None,
                   Some (Errorf ("JSON response does not have " +:+ rootNode +:+ " field")))
        | Some t => Returns (Some t, None)
        end
      end)
  end.

(** The decode error is formatted from [err], not from [dErr]. *)
Definition getIntegrationFromResponse (c : Client) (resp : option Response)
    (err : option error) : outcome (option Integration * option error) :=
  match err with
  | Some e => Returns (None, Some e)
  | None =>
    outcomeBind (decodeJSON c resp (∅ : gmap string Integration)) (fun decoded =>
      match decoded with
      | Err dErr =>
        Returns (None,
                 Some (Errorf ("Could not decode JSON response: " +:+ fmt_v err)))
      | Ok target =>
        let rootNode := "integration" in
        match target !! rootNode with
        | None =>
          Returns (None,
                   Some (Errorf ("JSON response does not have " +:+ rootNode +:+ " field")))
        | Some t => Returns (Some t, None)
        end
      end)
  end.

End Client.

Notation "'let*' p ':=' m 'in' k" := (callBind m (fun p => k))
  (at level 10, p pattern, m at level 100, k at level 200).

(* ===================================================================== *)
(** * The operations *)
(* ===================================================================== *)

Section Operations.
Context {D : Declarations} {Q : QueryEncoder QueryInput}.

(** The handler of [ListServicesPaginated]; [services] is the variable its
    closure appends to. *)
Definition servicesHandler (c : Client) (response : option Response)
    (services : slice Service)
  : outcome (slice Service * (APIListObject * option error)) :=
  outcomeBind (decodeJSON c response (structZero : ListServiceResponse)) (fun decoded =>
    match decoded with
    | Err err => Returns (services, (structZero, Some err))
    | Ok result =>
      Returns (append services (ListServiceResponse_Services result),
               ({| APIListObject_Limit := APIListObject_Limit (ListServiceResponse_APIListObject result);
                   APIListObject_Offset := APIListObject_Offset (ListServiceResponse_APIListObject result);
                   APIListObject_More := APIListObject_More (ListServiceResponse_APIListObject result);
                   APIListObject_Total := 0 |}, None))
    end).

(** [ListServicesPaginated]: lists the services over all pages.  The context
    argument is only handed on to [pagedGet] and is left out. *)
Definition ListServicesPaginated (fuel : nat) (c : Client) (o : ListServiceOptions)
  : Call (slice Service * option error) :=
  let services : slice Service := NilSlice in
  let '(v, err) := query_Values (OfListServiceOptions o) in
  match err with
  | Some e => callRet (NilSlice, Some e)
  | None =>
    let* (services, err) :=
      pagedGet fuel c ("/services?" +:+ Values_Encode v) (servicesHandler c) 0%N services in
    match err with
    | Some e => callRet (NilSlice, Some e)
    | None => callRet (services, None)
    end
  end.

(** [GetService]: the error of [query.Values] is assigned and then
    overwritten by the one of [get]. *)
Definition GetService (c : Client) (id : string) (o : option GetServiceOptions)
  : Call (option Service * option error) :=
  let '(v, err) := query_Values (OfGetServiceOptions o) in
  let* (resp, err) := get c ("/services/" +:+ id +:+ "?" +:+ Values_Encode v) in
  callLift (getServiceFromResponse c resp err).

Definition CreateService (c : Client) (s : Service) : Call (option Service * option error) :=
  let data : gmap string Service := ∅ in
  let data := <["service" := s]> data in
  let* (resp, err) := post c "/services" (ServiceMap data) in
  callLift (getServiceFromResponse c resp err).

Definition UpdateService (c : Client) (s : Service) : Call (option Service * option error) :=
  let body := ServiceBody s in
  let* (resp, err) := put c ("/services/" +:+ Service_ID s) body in
  callLift (getServiceFromResponse c resp err).

Definition DeleteService (c : Client) (id : string) : Call (option error) :=
  let* (_, err) := delete c ("/services/" +:+ id) in
  callRet err.

Definition CreateIntegration (c : Client) (id : string) (i : Integration)
  : Call (option Integration * option error) :=
  let data : gmap string Integration := ∅ in
  let data := <["integration" := i]> data in
  let* (resp, err) := post c ("/services/" +:+ id +:+ "/integrations") (IntegrationMap data) in
  callLift (getIntegrationFromResponse c resp err).

Definition GetIntegration (c : Client) (serviceID integrationID : string)
    (o : GetIntegrationOptions) : Call (option Integration * option error) :=
  let '(v, queryErr) := query_Values (OfGetIntegrationOptions o) in
  match queryErr with
  | Some e => callRet (None, Some e)
  | None =>
    let* (resp, err) :=
      get c ("/services/" +:+ serviceID +:+ "/integrations/" +:+ integrationID
             +:+ "?" +:+ Values_Encode v) in
    callLift (getIntegrationFromResponse c resp err)
  end.

(** [UpdateIntegration] hands the integration itself to [put]. *)
Definition UpdateIntegration (c : Client) (serviceID : string) (i : Integration)
  : Call (option Integration * option error) :=
  let* (resp, err) :=
    put c ("/services/" +:+ serviceID +:+ "/integrations/" +:+ Integration_ID i)
        (IntegrationValue i) in
  callLift (getIntegrationFromResponse c resp err).

Definition DeleteIntegration (c : Client) (serviceID integrationID : string)
  : Call (option error) :=
  let* (_, err) := delete c ("/services/" +:+ serviceID +:+ "/integrations/" +:+ integrationID) in
  callRet err.

(** The handler of [ListServiceRules]; [rules] is the variable its closure
    appends to. *)
Definition rulesHandler (c : Client) (response : option Response)
    (rules : slice (option ServiceRule))
  : outcome (slice (option ServiceRule) * (APIListObject * option error)) :=
  outcomeBind (decodeJSON c response (structZero : ListServiceRulesResponse)) (fun decoded =>
    match decoded with
    | Err err => Returns (rules, (structZero, Some err))
    | Ok result =>
      Returns (append rules (ListServiceRulesResponse_Rules result),
               ({| APIListObject_Limit := ListServiceRulesResponse_Limit result;
                   APIListObject_Offset := ListServiceRulesResponse_Offset result;
                   APIListObject_More := ListServiceRulesResponse_More result;
                   APIListObject_Total := 0 |}, None))
    end).

(** [ListServiceRules]: gets all rules of a service. *)
Definition ListServiceRules (fuel : nat) (c : Client) (serviceID : string)
  : Call (option ListServiceRulesResponse * option error) :=
  let rulesResponse : ListServiceRulesResponse := structZero in
  let rules : slice (option ServiceRule) := Slice [] in
  let* (rules, err) :=
    pagedGet fuel c ("/services/" +:+ serviceID +:+ "/rules") (rulesHandler c) 0%N rules in
  match err with
  | Some e => callRet (None, Some e)
  | None =>
    callRet (Some {| ListServiceRulesResponse_Offset := ListServiceRulesResponse_Offset rulesResponse;
                     ListServiceRulesResponse_Limit := ListServiceRulesResponse_Limit rulesResponse;
                     ListServiceRulesResponse_More := ListServiceRulesResponse_More rulesResponse;
                     ListServiceRulesResponse_Total := ListServiceRulesResponse_Total rulesResponse;
                     ListServiceRulesResponse_Rules := rules |}, None)
  end.

Definition GetServiceRule (c : Client) (serviceID ruleID : string)
  : Call (option ServiceRule * option Response * option error) :=
  let* (resp, err) := get c ("/services/" +:+ serviceID +:+ "/rules/" +:+ ruleID) in
  callLift (getServiceRuleFromResponse c resp err).

Definition DeleteServiceRule (c : Client) (serviceID ruleID : string) : Call (option error) :=
  let* (_, err) := delete c ("/services/" +:+ serviceID +:+ "/rules/" +:+ ruleID) in
  callRet err.

Definition CreateServiceRule (c : Client) (serviceID : string) (rule : option ServiceRule)
  : Call (option ServiceRule * option Response * option error) :=
  let data : gmap string (option ServiceRule) := ∅ in
  let data := <["rule" := rule]> data in
  let* (resp, err) := post c ("/services/" +:+ serviceID +:+ "/rules/") (ServiceRuleMap data) in
  callLift (getServiceRuleFromResponse c resp err).

Definition UpdateServiceRule (c : Client) (serviceID ruleID : string)
    (rule : option ServiceRule)
  : Call (option ServiceRule * option Response * option error) :=
  let data : gmap string (option ServiceRule) := ∅ in
  let data := <["rule" := rule]> data in
  let* (resp, err) :=
    put c ("/services/" +:+ serviceID +:+ "/rules/" +:+ ruleID) (ServiceRuleMap data) in
  callLift (getServiceRuleFromResponse c resp err).

End Operations.

(** What a returned pointer points to: a value, or a decode target whose
    content after a failed decode is not followed here. *)
Inductive pointee (T : Type) : Type :=
| Holds (x : T)
| Unfinished.
Arguments Holds {T} x.
Arguments Unfinished {T}.

Section ListOperation.
Context {D : Declarations} {Q : QueryEncoder QueryInput}.

(** [ListServices]: lists existing services, one page.  It returns the
    address of its result together with the error of [decodeJSON]: the
    pointer is not nil also when the decode failed. *)
Definition ListServices (c : Client) (o : ListServiceOptions)
  : Call (option (pointee ListServiceResponse) * option error) :=
  let '(v, err) := query_Values (OfListServiceOptions o) in
  match err with
  | Some e => callRet (None, Some e)
  | None =>
    let* (resp, err) := get c ("/services?" +:+ Values_Encode v) in
    match err with
    | Some e => callRet (None, Some e)
    | None =>
      callLift
        (outcomeBind (decodeJSON c resp (structZero : ListServiceResponse)) (fun decoded =>
           match decoded with
           | Ok result => Returns (Some (Holds result), None)
           | Err e => Returns (Some Unfinished, Some e)
           end))
    end
  end.

End ListOperation.

(* ===================================================================== *)
(** * Notions used in the statements *)
(* ===================================================================== *)

(** ** Query encoding with another error result *)

Definition withQueryError {Input} (Q : QueryEncoder Input)
    (failure : Input -> option error) : QueryEncoder Input := {|
  Values := @Values _ Q;
  query_Values := fun i => ((@query_Values _ Q i).1, failure i);
  Values_Encode := @Values_Encode _ Q;
|}.

(** ** What was sent *)

Section Observations.
Context {D : Declarations}.

(** The JSON body of a request, when it has one. *)
Definition sentBody (r : Request) : option json := marshalPayload <$> Request_Body r.

(** The method and the path of a request. *)
Definition line (r : Request) : Method * string := (Request_Method r, Request_Path r).

(** The request of [pagedGet] for the page at [offset]. *)
Definition pageRequest (path : string) (offset : uint) : Request :=
  {| Request_Method := GET; Request_Path := path;
     Request_Offset := Some offset; Request_Body := None |}.

(** The client answers the page requests of one run, starting at [offset]
    after [sent], with responses that decode to [pages], in this order:
    each request is the one [pagedGet] makes after the page before it. *)
Fixpoint serves {T} `{StructDecode T} (meta : T -> uint * uint) (c : Client)
    (path : string) (sent : list Request) (offset : uint) (pages : list T) : Prop :=
  match pages with
  | [] => True
  | p :: rest =>
    (exists resp : Response,
       Client_do c sent (pageRequest path offset) = (Some resp, None)
       /\ decodeJSON c (Some resp) (structZero : T) = Returns (Ok p))
    /\ serves meta c path (sent ++ [pageRequest path offset])
         (uintAdd (meta p).1 (meta p).2) rest
  end.

(** The request after the pages [pages]: what was sent by then and the
    offset asked for. *)
Fixpoint afterPages {T} (meta : T -> uint * uint) (path : string)
    (sent : list Request) (offset : uint) (pages : list T) : list Request * uint :=
  match pages with
  | [] => (sent, offset)
  | p :: rest =>
    afterPages meta path (sent ++ [pageRequest path offset])
      (uintAdd (meta p).1 (meta p).2) rest
  end.

(** The request for the page after [pages] fails: the client reports an
    error, or the body of its response does not decode. *)
Definition failsAfter {T} `{StructDecode T} (meta : T -> uint * uint) (c : Client)
    (path : string) (sent : list Request) (pages : list T) (e : error) : Prop :=
  let '(sent', offset) := afterPages meta path sent 0%N pages in
  (exists resp, Client_do c sent' (pageRequest path offset) = (resp, Some e))
  \/ (exists resp : Response,
        Client_do c sent' (pageRequest path offset) = (Some resp, None)
        /\ decodeJSON c (Some resp) (structZero : T) = Returns (Err e)).

Definition servicesMeta (p : ListServiceResponse) : uint * uint :=
  (APIListObject_Offset (ListServiceResponse_APIListObject p),
   APIListObject_Limit (ListServiceResponse_APIListObject p)).

Definition servicesMore (p : ListServiceResponse) : bool :=
  APIListObject_More (ListServiceResponse_APIListObject p).

Definition rulesMeta (p : ListServiceRulesResponse) : uint * uint :=
  (ListServiceRulesResponse_Offset p, ListServiceRulesResponse_Limit p).

End Observations.

(** ** Values that survive a round trip through JSON *)

(** A type whose valid values are read back as written, and whose empty
    values are its zero value. *)
Class Lawful (T : Type) `{Unmarshal T} `{Marshal T} (valid : T -> Prop) := {
  marshal_unmarshal : forall x, valid x -> unmarshal (marshal x) zero = Ok x;
  empty_is_zero : forall x, valid x -> isEmpty x = true -> x = zero;
}.

(** A type none of whose valid values is written as [null]. *)
Class NonNull (T : Type) `{Marshal T} (valid : T -> Prop) :=
  marshal_nonnull : forall x, valid x -> marshal x <> JNull.

Definition uint_valid (n : uint) : Prop := (n < 2 ^ 64)%N.

Definition pointer_valid {T} (valid : T -> Prop) (p : option T) : Prop :=
  match p with
  | None => True
  | Some x => valid x
  end.

(** A populated slice: nil, or with at least one element. *)
Definition slice_valid {T} (valid : T -> Prop) (s : slice T) : Prop :=
  match s with
  | NilSlice => True
  | Slice l => l <> [] /\ Forall valid l
  end.

(** No member of the embedded struct is named like one of [own]. *)
Definition keysFree {T} `{StructEncode T} (own : list string) : Prop :=
  forall (x : T) kv, In kv (structMembers x) ->
    existsb (fun n => keyIs n kv.1) own = false.

(** What the round trip of a [Service] needs from the declarations of the
    other files. *)
Class DeclarationLaws (D : Declarations) := {
  APIObject_valid : APIObject -> Prop;
  APIObject_roundtrip :
    forall a, APIObject_valid a -> structDecode (structMembers a) structZero = Ok a;
  APIObject_free_Service : keysFree (T := APIObject) Service_keys;
  APIObject_free_Integration : keysFree (T := APIObject) Integration_keys;
  EscalationPolicy_valid : EscalationPolicy -> Prop;
  EscalationPolicy_lawful :: Lawful EscalationPolicy EscalationPolicy_valid;
  Team_valid : Team -> Prop;
  Team_lawful :: Lawful Team Team_valid;
}.

Section Validity.
Context {D : Declarations} {L : DeclarationLaws D}.

Definition Integration_valid (i : Integration) : Prop :=
  APIObject_valid (Integration_APIObject i)
  /\ pointer_valid APIObject_valid (Integration_Service i)
  /\ pointer_valid APIObject_valid (Integration_Vendor i).

Definition SupportHours_valid (h : SupportHours) : Prop :=
  slice_valid uint_valid (SupportHours_DaysOfWeek h).

Definition AlertGroupParamsConfig_valid (c : AlertGroupParamsConfig) : Prop :=
  uint_valid (AlertGroupParamsConfig_Timeout c)
  /\ slice_valid (fun _ => True) (AlertGroupParamsConfig_Fields c).

Definition AlertGroupingParameters_valid (p : AlertGroupingParameters) : Prop :=
  AlertGroupParamsConfig_valid (AlertGroupingParameters_Config p).

(** A [Service] whose slices are populated (nil or non-empty) and whose
    numbers are in the range of [uint], with valid parts. *)
Definition Service_valid (s : Service) : Prop :=
  APIObject_valid (Service_APIObject s)
  /\ pointer_valid uint_valid (Service_AutoResolveTimeout s)
  /\ pointer_valid uint_valid (Service_AcknowledgementTimeout s)
  /\ slice_valid Integration_valid (Service_Integrations s)
  /\ EscalationPolicy_valid (Service_EscalationPolicy s)
  /\ slice_valid Team_valid (Service_Teams s)
  /\ pointer_valid SupportHours_valid (Service_SupportHours s)
  /\ slice_valid (fun _ => True) (Service_ScheduledActions s)
  /\ pointer_valid uint_valid (Service_AlertGroupingTimeout s)
  /\ pointer_valid AlertGroupingParameters_valid (Service_AlertGroupingParameters s).

End Validity.

(** ** Members of an object *)

(** The value of the last member of [ms] named exactly [key]. *)
Fixpoint lastMember (key : string) (ms : list (string * json)) : option json :=
  match ms with
  | [] => None
  | (k, v) :: rest =>
    match lastMember key rest with
    | Some v' => Some v'
    | None => if String.eqb k key then Some v else None
    end
  end.

(** A value that is neither an object nor [null]. *)
Definition notObject (v : json) : bool :=
  match v with
  | JObj _ => false
  | JNull => false
  | _ => true
  end.

(** ** Rules that survive a round trip through JSON *)

Definition int_valid (z : int) : Prop := - 2 ^ 63 <= z < 2 ^ 63.

(** What the round trip of a [ServiceRule] needs from the declarations of
    the other files: each type reads back what it wrote and writes no
    [null]. *)
Class RuleLaws (D : Declarations) := {
  RuleConditions_valid : RuleConditions -> Prop;
  RuleConditions_lawful :: Lawful RuleConditions RuleConditions_valid;
  RuleConditions_nonnull :: NonNull RuleConditions RuleConditions_valid;
  RuleTimeFrame_valid : RuleTimeFrame -> Prop;
  RuleTimeFrame_lawful :: Lawful RuleTimeFrame RuleTimeFrame_valid;
  RuleTimeFrame_nonnull :: NonNull RuleTimeFrame RuleTimeFrame_valid;
  RuleActionParameter_valid : RuleActionParameter -> Prop;
  RuleActionParameter_lawful :: Lawful RuleActionParameter RuleActionParameter_valid;
  RuleActionParameter_nonnull :: NonNull RuleActionParameter RuleActionParameter_valid;
  RuleActionExtraction_valid : RuleActionExtraction -> Prop;
  RuleActionExtraction_lawful :: Lawful RuleActionExtraction RuleActionExtraction_valid;
  RuleActionExtraction_nonnull :: NonNull RuleActionExtraction RuleActionExtraction_valid;
  RuleActionSuppress_valid : RuleActionSuppress -> Prop;
  RuleActionSuppress_lawful :: Lawful RuleActionSuppress RuleActionSuppress_valid;
  RuleActionSuppress_nonnull :: NonNull RuleActionSuppress RuleActionSuppress_valid;
  RuleActionSuspend_valid : RuleActionSuspend -> Prop;
  RuleActionSuspend_lawful :: Lawful RuleActionSuspend RuleActionSuspend_valid;
  RuleActionSuspend_nonnull :: NonNull RuleActionSuspend RuleActionSuspend_valid;
}.

Section RuleValidity.
Context {D : Declarations} {R : RuleLaws D}.

Definition ServiceRuleActions_valid (a : ServiceRuleActions) : Prop :=
  pointer_valid RuleActionParameter_valid (ServiceRuleActions_Annotate a)
  /\ pointer_valid RuleActionParameter_valid (ServiceRuleActions_EventAction a)
  /\ slice_valid (pointer_valid RuleActionExtraction_valid) (ServiceRuleActions_Extractions a)
  /\ pointer_valid RuleActionParameter_valid (ServiceRuleActions_Priority a)
  /\ pointer_valid RuleActionParameter_valid (ServiceRuleActions_Severity a)
  /\ pointer_valid RuleActionSuppress_valid (ServiceRuleActions_Suppress a)
  /\ pointer_valid RuleActionSuspend_valid (ServiceRuleActions_Suspend a).

(** A [ServiceRule] whose position fits [int], whose extractions are nil or
    non-empty, with valid parts. *)
Definition ServiceRule_valid (r : ServiceRule) : Prop :=
  pointer_valid RuleConditions_valid (ServiceRule_Conditions r)
  /\ pointer_valid RuleTimeFrame_valid (ServiceRule_TimeFrame r)
  /\ pointer_valid int_valid (ServiceRule_Position r)
  /\ pointer_valid ServiceRuleActions_valid (ServiceRule_Actions r).

End RuleValidity.

(** ** Envelopes *)

(** The envelope: an object with the single member [key]. *)
Definition envelope (key : string) (v : json) : json := JObj [(key, v)].

(** The nesting depth of a JSON value. *)
Fixpoint depth (j : json) : nat :=
  match j with
  | JArr items => S (list_max (map depth items))
  | JObj members => S (list_max (map (fun kv => match kv with (_, v) => depth v end) members))
  | _ => O
  end.

(* ===================================================================== *)
(** * A sample setting *)
(* ===================================================================== *)

(** Concrete declarations, a query encoder and clients on which the
    operations can be run. *)
Module Sample.

(** Modelled from the spec: [APIObject] is declared in another file; it
    carries the identity of a resource, the [ID] that the operations read,
    written as the member [id] in the spec's scenarios. *)
Record Object := { Object_ID : string }.

Definition Object_decode : StructDecode Object := {|
  structZero := {| Object_ID := EmptyString |};
  structDecode ms cur :=
    id ← decodeField "id" ms (Object_ID cur);
    Ok {| Object_ID := id |};
|}.

Definition Object_encode : StructEncode Object := {|
  structMembers o := memberOmitEmpty "id" (Object_ID o);
|}.

(** The remaining types are kept as the JSON value they were read from. *)
Definition raw_unmarshal : Unmarshal json := {|
  zero := JNull;
  unmarshal j _ := Ok j;
|}.

Definition raw_marshal : Marshal json := {|
  marshal j := j;
  isEmpty j := match j with JNull => true | _ => false end;
|}.

Definition declarations : Declarations := {|
  APIObject := Object;
  APIObject_ID := Object_ID;
  APIObject_decode := Object_decode;
  APIObject_encode := Object_encode;
  EscalationPolicy := json;
  EscalationPolicy_unmarshal := raw_unmarshal;
  EscalationPolicy_marshal := raw_marshal;
  Team := json;
  Team_unmarshal := raw_unmarshal;
  Team_marshal := raw_marshal;
  RuleConditions := json;
  RuleConditions_unmarshal := raw_unmarshal;
  RuleConditions_marshal := raw_marshal;
  RuleTimeFrame := json;
  RuleTimeFrame_unmarshal := raw_unmarshal;
  RuleTimeFrame_marshal := raw_marshal;
  RuleActionParameter := json;
  RuleActionParameter_unmarshal := raw_unmarshal;
  RuleActionParameter_marshal := raw_marshal;
  RuleActionExtraction := json;
  RuleActionExtraction_unmarshal := raw_unmarshal;
  RuleActionExtraction_marshal := raw_marshal;
  RuleActionSuppress := json;
  RuleActionSuppress_unmarshal := raw_unmarshal;
  RuleActionSuppress_marshal := raw_marshal;
  RuleActionSuspend := json;
  RuleActionSuspend_unmarshal := raw_unmarshal;
  RuleActionSuspend_marshal := raw_marshal;
|}.

#[local] Existing Instance declarations.

(** A query encoder that writes the [include[]] members and never fails, and
    one that always reports a failure. *)
Definition includes (i : QueryInput) : list string :=
  match i with
  | OfListServiceOptions o => elems (ListServiceOptions_Includes o)
  | OfGetServiceOptions None => []
  | OfGetServiceOptions (Some o) => elems (GetServiceOptions_Includes o)
  | OfGetIntegrationOptions o => elems (GetIntegrationOptions_Includes o)
  end.

Fixpoint encodeIncludes (vs : list string) : string :=
  match vs with
  | [] => EmptyString
  | [v] => "include[]=" +:+ v
  | v :: rest => "include[]=" +:+ v +:+ "&" +:+ encodeIncludes rest
  end.

Definition query : QueryEncoder QueryInput := {|
  Values := list string;
  query_Values i := (includes i, None);
  Values_Encode := encodeIncludes;
|}.

Definition failure : error := External "query: Values() expects struct input".

Definition failingQuery : QueryEncoder QueryInput :=
  withQueryError query (fun _ => Some failure).

(** A client that answers the n-th request with the n-th reply of a
    script, and reports a transport error once the script is over. *)
Definition refused : error := External "dial tcp: connection refused".

Definition scripted (replies : list (option Response * option error))
  : @Client declarations := {|
  Client_do sent _ := nth (length sent) replies (None, Some refused);
|}.

Definition ok (body : string) : option Response * option error :=
  (Some {| Response_Status := "200 OK"; Response_Body := dq body |}, None).

Definition emptyObject : Response :=
  {| Response_Status := "200 OK"; Response_Body := "{}" |}.

Definition notJSON : Response :=
  {| Response_Status := "200 OK"; Response_Body := "<html>" |}.

Definition web : @Service declarations :=
  {| Service_APIObject := {| Object_ID := "PXXXXXX" |}; Service_Name := "Web";
     Service_Description := EmptyString; Service_AutoResolveTimeout := None;
     Service_AcknowledgementTimeout := None; Service_CreateAt := EmptyString;
     Service_Status := EmptyString; Service_LastIncidentTimestamp := EmptyString;
     Service_Integrations := NilSlice; Service_EscalationPolicy := JNull;
     Service_Teams := NilSlice; Service_IncidentUrgencyRule := None;
     Service_SupportHours := None; Service_ScheduledActions := NilSlice;
     Service_AlertCreation := EmptyString; Service_AlertGrouping := EmptyString;
     Service_AlertGroupingTimeout := None; Service_AlertGroupingParameters := None |}.

Definition named (id : string) : @Service declarations :=
  {| Service_APIObject := {| Object_ID := id |}; Service_Name := EmptyString;
     Service_Description := EmptyString; Service_AutoResolveTimeout := None;
     Service_AcknowledgementTimeout := None; Service_CreateAt := EmptyString;
     Service_Status := EmptyString; Service_LastIncidentTimestamp := EmptyString;
     Service_Integrations := NilSlice; Service_EscalationPolicy := JNull;
     Service_Teams := NilSlice; Service_IncidentUrgencyRule := None;
     Service_SupportHours := None; Service_ScheduledActions := NilSlice;
     Service_AlertCreation := EmptyString; Service_AlertGrouping := EmptyString;
     Service_AlertGroupingTimeout := None; Service_AlertGroupingParameters := None |}.

Definition mail : @Integration declarations :=
  {| Integration_APIObject := {| Object_ID := "I1" |}; Integration_Name := "Mail";
     Integration_Service := None; Integration_CreatedAt := EmptyString;
     Integration_Vendor := None; Integration_Type := EmptyString;
     Integration_IntegrationKey := EmptyString;
     Integration_IntegrationEmail := EmptyString |}.

Definition noOptions : ListServiceOptions :=
  {| ListServiceOptions_APIListObject := structZero;
     ListServiceOptions_TeamIDs := NilSlice; ListServiceOptions_TimeZone := EmptyString;
     ListServiceOptions_SortBy := EmptyString; ListServiceOptions_Query := EmptyString;
     ListServiceOptions_Includes := NilSlice |}.

(** The two pages of the listing scenario, as they decode. *)
Definition page1 : ListServiceResponse :=
  {| ListServiceResponse_APIListObject :=
       {| APIListObject_Limit := 1; APIListObject_Offset := 0;
          APIListObject_More := true; APIListObject_Total := 0 |};
     ListServiceResponse_Services := Slice [named "S1"] |}.

Definition page2 : ListServiceResponse :=
  {| ListServiceResponse_APIListObject :=
       {| APIListObject_Limit := 1; APIListObject_Offset := 1;
          APIListObject_More := false; APIListObject_Total := 0 |};
     ListServiceResponse_Services := Slice [named "S2"] |}.

Definition page1Text : string :=
  "{'services':[{'id':'S1'}],'more':true,'offset':0,'limit':1}".

Definition page2Text : string :=
  "{'services':[{'id':'S2'}],'more':false,'offset':1,'limit':1}".

Definition ruleOf (id : string) : ServiceRule :=
  {| ServiceRule_ID := id; ServiceRule_Self := EmptyString; ServiceRule_Disabled := false;
     ServiceRule_Conditions := None; ServiceRule_TimeFrame := None;
     ServiceRule_Position := None; ServiceRule_Actions := None |}.

Definition rulePage1 : ListServiceRulesResponse :=
  {| ListServiceRulesResponse_Offset := 0; ListServiceRulesResponse_Limit := 1;
     ListServiceRulesResponse_More := true; ListServiceRulesResponse_Total := 0;
     ListServiceRulesResponse_Rules := Slice [Some (ruleOf "R1")] |}.

Definition rulePage2 : ListServiceRulesResponse :=
  {| ListServiceRulesResponse_Offset := 1; ListServiceRulesResponse_Limit := 1;
     ListServiceRulesResponse_More := false; ListServiceRulesResponse_Total := 0;
     ListServiceRulesResponse_Rules := Slice [Some (ruleOf "R2")] |}.

Definition rulePage1Text : string :=
  "{'rules':[{'id':'R1'}],'more':true,'offset':0,'limit':1}".

Definition rulePage2Text : string :=
  "{'rules':[{'id':'R2'}],'more':false,'offset':1,'limit':1}".

(** A service with its optional fields populated, and the text of its
    envelope. *)
Definition populated : Service :=
  {| Service_APIObject := {| Object_ID := "PXXXXXX" |}; Service_Name := "Web";
     Service_Description := "Storefront";
     Service_AutoResolveTimeout := Some 14400%N;
     Service_AcknowledgementTimeout := Some 0%N;
     Service_CreateAt := "2015-11-06T11:12:51-05:00"; Service_Status := "active";
     Service_LastIncidentTimestamp := "2015-11-07T10:00:00-05:00";
     Service_Integrations := Slice [mail];
     Service_EscalationPolicy := JObj [("id", JStr "EP1")];
     Service_Teams := Slice [JObj [("id", JStr "T1")]];
     Service_IncidentUrgencyRule :=
       Some {| IncidentUrgencyRule_Type := "use_support_hours";
               IncidentUrgencyRule_Urgency := EmptyString;
               IncidentUrgencyRule_DuringSupportHours :=
                 Some {| IncidentUrgencyType_Type := "constant";
                         IncidentUrgencyType_Urgency := "high" |};
               IncidentUrgencyRule_OutsideSupportHours :=
                 Some {| IncidentUrgencyType_Type := "constant";
                         IncidentUrgencyType_Urgency := "low" |} |};
     Service_SupportHours :=
       Some {| SupportHours_Type := "fixed_time_per_day"; SupportHours_Timezone := "UTC";
               SupportHours_StartTime := "09:00:00"; SupportHours_EndTime := "17:00:00";
               SupportHours_DaysOfWeek := Slice [1; 2; 3; 4; 5]%N |};
     Service_ScheduledActions :=
       Slice [{| ScheduledAction_Type := "urgency_change";
                 ScheduledAction_At := {| InlineModel_Type := "named_time";
                                          InlineModel_Name := "support_hours_start" |};
                 ScheduledAction_ToUrgency := "high" |}];
     Service_AlertCreation := "create_alerts_and_incidents";
     Service_AlertGrouping := "time";
     Service_AlertGroupingTimeout := Some 2%N;
     Service_AlertGroupingParameters :=
       Some {| AlertGroupingParameters_Type := "time";
               AlertGroupingParameters_Config :=
                 {| AlertGroupParamsConfig_Timeout := 2;
                    AlertGroupParamsConfig_Aggregate := "all";
                    AlertGroupParamsConfig_Fields := Slice ["summary"] |} |} |}.

Definition populatedText : string :=
  "{'service':{'id':'PXXXXXX','name':'Web','description':'Storefront',
     'auto_resolve_timeout':14400,'acknowledgement_timeout':0,
     'created_at':'2015-11-06T11:12:51-05:00','status':'active',
     'last_incident_timestamp':'2015-11-07T10:00:00-05:00',
     'integrations':[{'id':'I1','name':'Mail'}],
     'escalation_policy':{'id':'EP1'},'teams':[{'id':'T1'}],
     'incident_urgency_rule':{'type':'use_support_hours',
        'during_support_hours':{'type':'constant','urgency':'high'},
        'outside_support_hours':{'type':'constant','urgency':'low'}},
     'support_hours':{'type':'fixed_time_per_day','time_zone':'UTC',
        'start_time':'09:00:00','end_time':'17:00:00','days_of_week':[1,2,3,4,5]},
     'scheduled_actions':[{'type':'urgency_change',
        'at':{'type':'named_time','name':'support_hours_start'},'to_urgency':'high'}],
     'alert_creation':'create_alerts_and_incidents','alert_grouping':'time',
     'alert_grouping_timeout':2,
     'alert_grouping_parameters':{'type':'time',
        'config':{'timeout':2,'aggregate':'all','fields':['summary']}}}}".

Definition populatedResponse : Response :=
  {| Response_Status := "200 OK"; Response_Body := dq populatedText |}.

(** Responses with the bodies of the further examples. *)
Definition reply (body : string) : Response :=
  {| Response_Status := "200 OK"; Response_Body := dq body |}.

Definition serviceTwice : Response :=
  reply "{'service':{'id':'OLD'},'service':{'id':'PXXXXXX','name':'Web'}}".

Definition integrationTwice : Response :=
  reply "{'integration':{'id':'OLD'},'integration':{'id':'I1','name':'Mail'}}".

Definition ruleTwice : Response :=
  reply "{'rule':{'id':'OLD'},'rule':{'id':'R1'}}".

Definition nullService : Response := reply "{'service':null}".
Definition nullIntegration : Response := reply "{'integration':null}".
Definition nullRule : Response := reply "{'rule':null}".

Definition capitalService : Response := reply "{'Service':{'id':'PXXXXXX'}}".
Definition capitalIntegration : Response := reply "{'Integration':{'id':'I1'}}".
Definition capitalRule : Response := reply "{'RULE':{'id':'R1'}}".

Definition serviceWithTotal : Response :=
  reply "{'service':{'id':'PXXXXXX','name':'Web'},'total':5}".

(** An integration with its references, and the text of its envelope. *)
Definition inbound : Integration :=
  {| Integration_APIObject := {| Object_ID := "I1" |}; Integration_Name := "Mail";
     Integration_Service := Some {| Object_ID := "PXXXXXX" |};
     Integration_CreatedAt := "2015-10-14T13:22:19-07:00";
     Integration_Vendor := Some {| Object_ID := "V1" |};
     Integration_Type := "generic_email_inbound_integration";
     Integration_IntegrationKey := "k1";
     Integration_IntegrationEmail := "web@example.pagerduty.com" |}.

Definition inboundResponse : Response :=
  reply "{'integration':{'id':'I1','name':'Mail','service':{'id':'PXXXXXX'},
           'created_at':'2015-10-14T13:22:19-07:00','vendor':{'id':'V1'},
           'type':'generic_email_inbound_integration','integration_key':'k1',
           'integration_email':'web@example.pagerduty.com'}}".

(** A rule with conditions, a position and actions, and the text of its
    envelope. *)
Definition dedup : ServiceRule :=
  {| ServiceRule_ID := "R1"; ServiceRule_Self := EmptyString; ServiceRule_Disabled := true;
     ServiceRule_Conditions := Some (JObj [("operator", JStr "and")]);
     ServiceRule_TimeFrame := None;
     ServiceRule_Position := Some 0;
     ServiceRule_Actions :=
       Some {| ServiceRuleActions_Annotate := Some (JObj [("value", JStr "note")]);
               ServiceRuleActions_EventAction := None;
               ServiceRuleActions_Extractions :=
                 Slice [Some (JObj [("target", JStr "dedup_key")])];
               ServiceRuleActions_Priority := None;
               ServiceRuleActions_Severity := None;
               ServiceRuleActions_Suppress := Some (JObj [("value", JBool true)]);
               ServiceRuleActions_Suspend := None |} |}.

Definition dedupResponse : Response :=
  reply "{'rule':{'id':'R1','disabled':true,'conditions':{'operator':'and'},
           'position':0,
           'actions':{'annotate':{'value':'note'},
                      'extractions':[{'target':'dedup_key'}],
                      'suppress':{'value':true}}}}".

(** Last pages without items, as the API sends them. *)
Definition noServicesText : string :=
  "{'services':[],'more':false,'offset':0,'limit':25}".

Definition noRulesText : string :=
  "{'rules':[],'more':false,'offset':0,'limit':25,'total':9}".

(** A client that answers its first request with a response and an error. *)
Definition failing : @Client declarations :=
  scripted [(Some emptyObject, Some refused)].

End Sample.


(* ===================================================================== *)
(** * Unwrapping the envelope *)
(* ===================================================================== *)

Section EnvelopeFacts.
Context {D : Declarations}.

(** C1: when the body of a response decodes to a map without the root key,
    each helper returns (it does not panic) a nil resource and the error
    [JSON response does not have <key> field], which names the key:
    [service], [integration] or [rule]. *)
Theorem missing_root_key_is_reported (c : Client) (resp : Response) :
  (forall target : gmap string Service,
     decodeJSON c (Some resp) (∅ : gmap string Service) = Returns (Ok target) ->
     target !! "service" = None ->
     getServiceFromResponse c (Some resp) None
     = Returns (None, Some (Errorf "JSON response does not have service field")))
  /\ (forall target : gmap string Integration,
        decodeJSON c (Some resp) (∅ : gmap string Integration) = Returns (Ok target) ->
        target !! "integration" = None ->
        getIntegrationFromResponse c (Some resp) None
        = Returns (None, Some (Errorf "JSON response does not have integration field")))
  /\ (forall target : gmap string ServiceRule,
        decodeJSON c (Some resp) (∅ : gmap string ServiceRule) = Returns (Ok target) ->
        target !! "rule" = None ->
        getServiceRuleFromResponse c (Some resp) None
        = Returns (None, None, Some (Errorf "JSON response does not have rule field"))).
Proof.
  repeat split; intros target Hdecode Hkey.
  - unfold getServiceFromResponse. rewrite Hdecode. cbn. now rewrite Hkey.
  - unfold getIntegrationFromResponse. rewrite Hdecode. cbn. now rewrite Hkey.
  - unfold getServiceRuleFromResponse. rewrite Hdecode. cbn. now rewrite Hkey.
Qed.

(** C2: when the body of a response does not decode, the service helper and
    the rule helper return an error whose text ends with the text of the
    decode failure; the integration helper formats its [err] argument, which
    is nil there, and returns [Could not decode JSON response: <nil>]
    whatever the decode failure was. *)
Theorem decode_failure_is_reported (c : Client) (resp : Response) (dErr : error) :
  (decodeJSON c (Some resp) (∅ : gmap string Service) = Returns (Err dErr) ->
   getServiceFromResponse c (Some resp) None
   = Returns (None, Some (Errorf ("Could not decode JSON response: " +:+ Error dErr))))
  /\ (decodeJSON c (Some resp) (∅ : gmap string ServiceRule) = Returns (Err dErr) ->
      getServiceRuleFromResponse c (Some resp) None
      = Returns (None, None,
                 Some (Errorf ("Could not decode JSON response: " +:+ Error dErr))))
  /\ (decodeJSON c (Some resp) (∅ : gmap string Integration) = Returns (Err dErr) ->
      getIntegrationFromResponse c (Some resp) None
      = Returns (None, Some (Errorf "Could not decode JSON response: <nil>"))).
Proof.
  repeat split; intros Hdecode.
  - unfold getServiceFromResponse. now rewrite Hdecode.
  - unfold getServiceRuleFromResponse. now rewrite Hdecode.
  - unfold getIntegrationFromResponse. now rewrite Hdecode.
Qed.

(** C6: with a failed request and a nil response, [getServiceFromResponse]
    panics: it reads the response for its log entry before it returns the
    error.  The integration helper and the rule helper return the error. *)
Theorem failed_request_with_nil_response (c : Client) (e : error) :
  getServiceFromResponse c None (Some e) = Panics
  /\ getIntegrationFromResponse c None (Some e) = Returns (None, Some e)
  /\ getServiceRuleFromResponse c None (Some e) = Returns (None, None, Some e).
Proof. repeat split. Qed.

(** With a response at hand the service helper returns the error as it is. *)
Lemma failed_request_with_response (c : Client) (resp : Response) (e : error) :
  getServiceFromResponse c (Some resp) (Some e) = Returns (None, Some e).
Proof. reflexivity. Qed.

End EnvelopeFacts.

Section QueryFacts.
Context {D : Declarations} {Q : QueryEncoder QueryInput}.

(** C10: whatever error the query encoder reports, [GetService] sends the
    same request and returns the same result: the error of the encoding
    step never reaches the caller.  The result is what
    [getServiceFromResponse] makes of the client's answer to the one GET
    request. *)
Theorem GetService_ignores_query_error (failure : QueryInput -> option error)
    (c : Client) (id : string) (o : option GetServiceOptions) (sent : list Request) :
  GetService (Q := withQueryError Q failure) c id o sent = GetService (Q := Q) c id o sent
  /\ GetService (Q := Q) c id o sent
     = (let request :=
          {| Request_Method := GET;
             Request_Path := "/services/" +:+ id +:+ "?"
                             +:+ Values_Encode (query_Values (OfGetServiceOptions o)).1;
             Request_Offset := None; Request_Body := None |} in
        (getServiceFromResponse c (Client_do c sent request).1 (Client_do c sent request).2,
         sent ++ [request])).
Proof.
  unfold GetService. cbn.
  destruct (query_Values (OfGetServiceOptions o)) as [v err]. split; [reflexivity|].
  unfold callBind, get, send, callLift. cbn.
  now destruct (Client_do c sent _) as [resp err'].
Qed.

(** [GetIntegration], in contrast, returns the error of the encoding step
    and sends nothing. *)
Lemma GetIntegration_reports_query_error (c : Client) (serviceID integrationID : string)
    (o : GetIntegrationOptions) (sent : list Request) (v : Values) (e : error) :
  query_Values (OfGetIntegrationOptions o) = (v, Some e) ->
  GetIntegration c serviceID integrationID o sent = (Returns (None, Some e), sent).
Proof. intros Hq. unfold GetIntegration. now rewrite Hq. Qed.

End QueryFacts.

(* ===================================================================== *)
(** * The requests that are sent *)
(* ===================================================================== *)

Lemma envelope_is_deeper (key : string) (v : json) : v <> envelope key v.
Proof.
  intros Heq. apply (f_equal depth) in Heq. cbn in Heq. lia.
Qed.

Lemma length_append (a b : string) :
  String.length (a +:+ b) = (String.length a + String.length b)%nat.
Proof. induction a as [|ch a IH]; simpl; [reflexivity | now f_equal]. Qed.

Lemma marshal_singleton_map {T} `{Marshal T} (k : string) (x : T) :
  marshal (<[k := x]> (∅ : gmap string T)) = envelope k (marshal x).
Proof.
  unfold marshal at 1, map_marshal.
  now rewrite insert_empty, map_to_list_singleton.
Qed.

Section RequestFacts.
Context {D : Declarations} {Q : QueryEncoder QueryInput}.

Lemma sent_after_send {A} (c : Client) (req : Request)
    (k : option Response -> option error -> outcome A) (sent : list Request) :
  (callBind (send c req) (fun '(resp, err) => callLift (k resp err)) sent).2
  = sent ++ [req].
Proof.
  unfold callBind, send, callLift. cbn.
  destruct (Client_do c sent req) as [resp err]. now destruct (k resp err).
Qed.

(** Every request of [pagedGet] is a GET of the base path. *)
Lemma pagedGet_requests {S} (fuel : nat) (c : Client) (path : string)
    (handler : option Response -> S -> outcome (S * (APIListObject * option error)))
    (offset : uint) (acc : S) (sent : list Request) :
  exists new,
    (pagedGet fuel c path handler offset acc sent).2 = sent ++ new
    /\ Forall (fun r => Request_Method r = GET /\ Request_Path r = path
                        /\ Request_Body r = None) new.
Proof.
  revert offset acc sent. induction fuel as [|fuel IH]; intros offset acc sent.
  - exists []. cbn. now rewrite app_nil_r.
  - set (req := {| Request_Method := GET; Request_Path := path;
                   Request_Offset := Some offset; Request_Body := None |}).
    assert (Hreq : Forall (fun r => Request_Method r = GET /\ Request_Path r = path
                                    /\ Request_Body r = None) [req])
      by (repeat constructor).
    cbn [pagedGet]. fold req. unfold callBind at 1, send.
    destruct (Client_do c sent req) as [response [e|]].
    + exists [req]. now cbn.
    + unfold callBind, callLift.
      destruct (handler response acc) as [[acc' [state [e|]]]| |];
        try (exists [req]; now cbn).
      destruct (APIListObject_More state); [|exists [req]; now cbn].
      destruct (IH (uintAdd (APIListObject_Offset state) (APIListObject_Limit state))
                   acc' (sent ++ [req])) as (new & Hsent & Hnew).
      exists (req :: new). split.
      * rewrite Hsent. now rewrite <- app_assoc.
      * constructor; [repeat split | exact Hnew].
Qed.

(** C3: [CreateService], [UpdateService], [CreateIntegration],
    [CreateServiceRule] and [UpdateServiceRule] send the record in an
    envelope under [service], [integration] or [rule].  [UpdateIntegration]
    sends the integration itself, which is not its envelope. *)
Theorem request_bodies (c : Client) (sent : list Request) (s : Service)
    (i : Integration) (rule : option ServiceRule) (serviceID ruleID : string) :
  sentBody <$> (CreateService c s sent).2
  = (sentBody <$> sent) ++ [Some (envelope "service" (marshal s))]
  /\ sentBody <$> (UpdateService c s sent).2
     = (sentBody <$> sent) ++ [Some (envelope "service" (marshal s))]
  /\ sentBody <$> (CreateIntegration c serviceID i sent).2
     = (sentBody <$> sent) ++ [Some (envelope "integration" (marshal i))]
  /\ sentBody <$> (CreateServiceRule c serviceID rule sent).2
     = (sentBody <$> sent) ++ [Some (envelope "rule" (marshal rule))]
  /\ sentBody <$> (UpdateServiceRule c serviceID ruleID rule sent).2
     = (sentBody <$> sent) ++ [Some (envelope "rule" (marshal rule))]
  /\ sentBody <$> (UpdateIntegration c serviceID i sent).2
     = (sentBody <$> sent) ++ [Some (marshal i)]
  /\ marshal i <> envelope "integration" (marshal i).
Proof.
  unfold CreateService, UpdateService, CreateIntegration, CreateServiceRule,
    UpdateServiceRule, UpdateIntegration, post, put.
  rewrite !sent_after_send, !fmap_app. cbn [fmap list_fmap].
  unfold sentBody. cbn [Request_Body fmap option_fmap option_map marshalPayload].
  rewrite !marshal_singleton_map.
  repeat split. apply envelope_is_deeper.
Qed.

(** C8: the paths of the service-rule operations.  [ListServiceRules],
    [GetServiceRule], [UpdateServiceRule] and [DeleteServiceRule] use
    [/services/:id/rules] and [/services/:id/rules/:id];
    [CreateServiceRule] posts to [/services/:id/rules/], with a slash at the
    end, which is not the path of the collection. *)
Theorem service_rule_paths (fuel : nat) (c : Client) (sent : list Request)
    (serviceID ruleID : string) (rule : option ServiceRule) :
  (exists n,
     Request_Path <$> (ListServiceRules fuel c serviceID sent).2
     = (Request_Path <$> sent) ++ replicate n ("/services/" +:+ serviceID +:+ "/rules"))
  /\ Request_Path <$> (GetServiceRule c serviceID ruleID sent).2
     = (Request_Path <$> sent) ++ ["/services/" +:+ serviceID +:+ "/rules/" +:+ ruleID]
  /\ Request_Path <$> (UpdateServiceRule c serviceID ruleID rule sent).2
     = (Request_Path <$> sent) ++ ["/services/" +:+ serviceID +:+ "/rules/" +:+ ruleID]
  /\ Request_Path <$> (DeleteServiceRule c serviceID ruleID sent).2
     = (Request_Path <$> sent) ++ ["/services/" +:+ serviceID +:+ "/rules/" +:+ ruleID]
  /\ Request_Path <$> (CreateServiceRule c serviceID rule sent).2
     = (Request_Path <$> sent) ++ ["/services/" +:+ serviceID +:+ "/rules/"]
  /\ "/services/" +:+ serviceID +:+ "/rules/" <> "/services/" +:+ serviceID +:+ "/rules".
Proof.
  split; [|repeat split].
  - unfold ListServiceRules.
    destruct (pagedGet_requests fuel c ("/services/" +:+ serviceID +:+ "/rules")
                (rulesHandler c) 0%N (Slice []) sent) as (new & Hsent & Hnew).
    exists (length new).
    unfold callBind.
    destruct (pagedGet fuel c _ (rulesHandler c) 0%N (Slice []) sent)
      as [[[rules [e|]]| |] sent']; cbn in Hsent |- *; subst sent';
      rewrite fmap_app; f_equal;
      clear -Hnew; induction Hnew as [|r new (_ & Hpath & _) _ IH]; cbn;
      try reflexivity; now rewrite Hpath, IH.
  - unfold GetServiceRule, get. now rewrite sent_after_send, fmap_app.
  - unfold UpdateServiceRule, put. now rewrite sent_after_send, fmap_app.
  - unfold DeleteServiceRule, delete, callBind, send, callRet. cbn.
    destruct (Client_do c sent _) as [resp err]. cbn. now rewrite fmap_app.
  - unfold CreateServiceRule, post. now rewrite sent_after_send, fmap_app.
  - intros Heq. apply (f_equal String.length) in Heq.
    rewrite !length_append in Heq. cbn in Heq. lia.
Qed.

End RequestFacts.

(* ===================================================================== *)
(** * Pagination *)
(* ===================================================================== *)

Lemma elems_append {A} (s xs : slice A) : elems (append s xs) = elems s ++ elems xs.
Proof.
  unfold append. destruct (elems xs) as [|x l]; [now rewrite app_nil_r | reflexivity].
Qed.

Lemma afterPages_last {D : Declarations} {T} (meta : T -> uint * uint) (path : string)
    (ps : list T) (last : T) (sent : list Request) (offset : uint) :
  (afterPages meta path sent offset (ps ++ [last])).1
  = (afterPages meta path sent offset ps).1
    ++ [pageRequest path (afterPages meta path sent offset ps).2].
Proof.
  revert sent offset. induction ps as [|p ps IH]; intros sent offset;
    [reflexivity | apply IH].
Qed.

Lemma afterPages_length {D : Declarations} {T} (meta : T -> uint * uint) (path : string)
    (ps : list T) (sent : list Request) (offset : uint) :
  length (afterPages meta path sent offset ps).1 = (length sent + length ps)%nat.
Proof.
  revert sent offset. induction ps as [|p ps IH]; intros sent offset; cbn.
  - lia.
  - rewrite IH, length_app. cbn. lia.
Qed.

Section Paging.
Context {D : Declarations} {T : Type} `{StructDecode T} {S : Type}.
Variable c : Client.
Variable handler : option Response -> S -> outcome (S * (APIListObject * option error)).
Variable meta : T -> uint * uint.
Variable more : T -> bool.
Variable step : S -> T -> S.

Hypothesis handler_ok : forall (resp : Response) (p : T) (acc : S),
  decodeJSON c (Some resp) (structZero : T) = Returns (Ok p) ->
  exists state,
    handler (Some resp) acc = Returns (step acc p, (state, None))
    /\ APIListObject_More state = more p
    /\ (APIListObject_Offset state, APIListObject_Limit state) = meta p.

Hypothesis handler_err : forall (resp : Response) (e : error) (acc : S),
  decodeJSON c (Some resp) (structZero : T) = Returns (Err e) ->
  exists state, handler (Some resp) acc = Returns (acc, (state, Some e)).

Lemma serves_app (path : string) (ps qs : list T) (sent : list Request) (offset : uint) :
  serves meta c path sent offset (ps ++ qs)
  <-> serves meta c path sent offset ps
      /\ serves meta c path (afterPages meta path sent offset ps).1
           (afterPages meta path sent offset ps).2 qs.
Proof.
  revert sent offset. induction ps as [|p ps IH]; intros sent offset; cbn.
  - tauto.
  - rewrite IH. tauto.
Qed.

(** One page that is served and decodes. *)
Lemma pagedGet_page (fuel : nat) (path : string) (sent : list Request) (offset : uint)
    (acc : S) (p : T) (rest : list T) :
  serves meta c path sent offset (p :: rest) ->
  pagedGet (Datatypes.S fuel) c path handler offset acc sent
  = if more p
    then pagedGet fuel c path handler (uintAdd (meta p).1 (meta p).2) (step acc p)
           (sent ++ [pageRequest path offset])
    else (Returns (step acc p, None), sent ++ [pageRequest path offset]).
Proof.
  intros [(resp & Hdo & Hdecode) _].
  destruct (handler_ok resp p acc Hdecode) as (state & Hhandler & Hmore & Hmeta).
  cbn [pagedGet]. unfold callBind at 1, send. fold (pageRequest path offset).
  rewrite Hdo. unfold callBind, callLift. rewrite Hhandler, Hmore.
  destruct (more p); [|reflexivity].
  now rewrite <- Hmeta.
Qed.

(** The pages that report more pages are read one after the other. *)
Lemma pagedGet_pages (ps : list T) (fuel : nat) (path : string) (sent : list Request)
    (offset : uint) (acc : S) :
  serves meta c path sent offset ps ->
  Forall (fun p => more p = true) ps ->
  pagedGet (length ps + fuel) c path handler offset acc sent
  = pagedGet fuel c path handler (afterPages meta path sent offset ps).2
      (foldl step acc ps) (afterPages meta path sent offset ps).1.
Proof.
  revert sent offset acc. induction ps as [|p ps IH]; intros sent offset acc Hserves Hmore.
  - reflexivity.
  - inversion Hmore as [|? ? Hp Hps]; subst.
    cbn [length Nat.add]. rewrite (pagedGet_page _ _ _ _ _ p ps Hserves), Hp.
    cbn [afterPages foldl]. apply IH; [apply Hserves | exact Hps].
Qed.

(** A request that fails, or whose response does not decode, ends the run
    with the error. *)
Lemma pagedGet_failure (fuel : nat) (path : string) (sent : list Request)
    (offset : uint) (acc : S) (e : error) :
  (exists resp, Client_do c sent (pageRequest path offset) = (resp, Some e))
  \/ (exists resp : Response,
        Client_do c sent (pageRequest path offset) = (Some resp, None)
        /\ decodeJSON c (Some resp) (structZero : T) = Returns (Err e)) ->
  pagedGet (Datatypes.S fuel) c path handler offset acc sent
  = (Returns (acc, Some e), sent ++ [pageRequest path offset]).
Proof.
  intros [(resp & Hdo)|(resp & Hdo & Hdecode)];
    cbn [pagedGet]; unfold callBind at 1, send; fold (pageRequest path offset);
    rewrite Hdo.
  - reflexivity.
  - destruct (handler_err resp e acc Hdecode) as (state & Hhandler).
    unfold callBind, callLift. now rewrite Hhandler.
Qed.

(** A run over [ps] and a last page without more pages. *)
Lemma pagedGet_complete (ps : list T) (last : T) (fuel : nat) (path : string)
    (sent : list Request) (acc : S) :
  serves meta c path sent 0%N (ps ++ [last]) ->
  Forall (fun p => more p = true) ps ->
  more last = false ->
  (length ps < fuel)%nat ->
  pagedGet fuel c path handler 0%N acc sent
  = (Returns (foldl step acc (ps ++ [last]), None),
     (afterPages meta path sent 0%N (ps ++ [last])).1).
Proof.
  intros Hserves Hmore Hlast Hfuel.
  apply serves_app in Hserves as [Hps Hl].
  replace fuel with (length ps + Datatypes.S (fuel - Datatypes.S (length ps)))%nat by lia.
  rewrite (pagedGet_pages ps _ _ _ _ _ Hps Hmore).
  rewrite (pagedGet_page _ _ _ _ _ last [] Hl), Hlast.
  now rewrite foldl_app, afterPages_last.
Qed.

(** A run over [ps] and then a failure. *)
Lemma pagedGet_interrupted (ps : list T) (fuel : nat) (path : string)
    (sent : list Request) (acc : S) (e : error) :
  serves meta c path sent 0%N ps ->
  Forall (fun p => more p = true) ps ->
  failsAfter meta c path sent ps e ->
  (length ps < fuel)%nat ->
  exists sent',
    pagedGet fuel c path handler 0%N acc sent
    = (Returns (foldl step acc ps, Some e), sent').
Proof.
  intros Hserves Hmore Hfails Hfuel. unfold failsAfter in Hfails.
  replace fuel with (length ps + Datatypes.S (fuel - Datatypes.S (length ps)))%nat by lia.
  rewrite (pagedGet_pages ps _ _ _ _ _ Hserves Hmore).
  destruct (afterPages meta path sent 0%N ps) as [sent' offset]. cbn [fst snd].
  eexists. now apply pagedGet_failure.
Qed.

End Paging.

Section ListFacts.
Context {D : Declarations} {Q : QueryEncoder QueryInput}.

Lemma servicesHandler_ok (c : Client) (resp : Response) (p : ListServiceResponse)
    (acc : slice Service) :
  decodeJSON c (Some resp) (structZero : ListServiceResponse) = Returns (Ok p) ->
  exists state,
    servicesHandler c (Some resp) acc
    = Returns (append acc (ListServiceResponse_Services p), (state, None))
    /\ APIListObject_More state = servicesMore p
    /\ (APIListObject_Offset state, APIListObject_Limit state) = servicesMeta p.
Proof.
  intros Hdecode. unfold servicesHandler. rewrite Hdecode. cbn.
  eexists. split; [reflexivity|]. now split.
Qed.

Lemma servicesHandler_err (c : Client) (resp : Response) (e : error) (acc : slice Service) :
  decodeJSON c (Some resp) (structZero : ListServiceResponse) = Returns (Err e) ->
  exists state, servicesHandler c (Some resp) acc = Returns (acc, (state, Some e)).
Proof.
  intros Hdecode. unfold servicesHandler. rewrite Hdecode. cbn. now eexists.
Qed.

Lemma rulesHandler_ok (c : Client) (resp : Response) (p : ListServiceRulesResponse)
    (acc : slice (option ServiceRule)) :
  decodeJSON c (Some resp) (structZero : ListServiceRulesResponse) = Returns (Ok p) ->
  exists state,
    rulesHandler c (Some resp) acc
    = Returns (append acc (ListServiceRulesResponse_Rules p), (state, None))
    /\ APIListObject_More state = ListServiceRulesResponse_More p
    /\ (APIListObject_Offset state, APIListObject_Limit state) = rulesMeta p.
Proof.
  intros Hdecode. unfold rulesHandler. rewrite Hdecode. cbn.
  eexists. split; [reflexivity|]. now split.
Qed.

Lemma rulesHandler_err (c : Client) (resp : Response) (e : error)
    (acc : slice (option ServiceRule)) :
  decodeJSON c (Some resp) (structZero : ListServiceRulesResponse) = Returns (Err e) ->
  exists state, rulesHandler c (Some resp) acc = Returns (acc, (state, Some e)).
Proof.
  intros Hdecode. unfold rulesHandler. rewrite Hdecode. cbn. now eexists.
Qed.

Lemma elems_accumulated {A T} (items : T -> slice A) (ps : list T) (acc : slice A) :
  elems (foldl (fun acc p => append acc (items p)) acc ps)
  = elems acc ++ concat (map (fun p => elems (items p)) ps).
Proof.
  revert acc. induction ps as [|p ps IH]; intros acc; cbn.
  - now rewrite app_nil_r.
  - now rewrite IH, elems_append, <- app_assoc.
Qed.

(** C5: when the pages [ps] report more pages and [last] does not, and the
    client serves them in this order, the list operations return (given a
    loop bound above the number of pages) without an error, after one
    request per page, the items of the pages in page order: nothing is
    reordered, dropped or merged. *)
Theorem paginated_lists_concatenate (fuel : nat) (c : Client) (sent : list Request) :
  (forall (o : ListServiceOptions) (v : Values) (ps : list ListServiceResponse)
          (last : ListServiceResponse),
     query_Values (OfListServiceOptions o) = (v, None) ->
     serves servicesMeta c ("/services?" +:+ Values_Encode v) sent 0%N (ps ++ [last]) ->
     Forall (fun p => servicesMore p = true) ps ->
     servicesMore last = false ->
     (length ps < fuel)%nat ->
     exists services sent',
       ListServicesPaginated fuel c o sent = (Returns (services, None), sent')
       /\ length sent' = (length sent + length (ps ++ [last]))%nat
       /\ elems services
          = concat (map (fun p => elems (ListServiceResponse_Services p)) (ps ++ [last])))
  /\ (forall (serviceID : string) (ps : list ListServiceRulesResponse)
             (last : ListServiceRulesResponse),
        serves rulesMeta c ("/services/" +:+ serviceID +:+ "/rules") sent 0%N (ps ++ [last]) ->
        Forall (fun p => ListServiceRulesResponse_More p = true) ps ->
        ListServiceRulesResponse_More last = false ->
        (length ps < fuel)%nat ->
        exists response sent',
          ListServiceRules fuel c serviceID sent = (Returns (Some response, None), sent')
          /\ length sent' = (length sent + length (ps ++ [last]))%nat
          /\ elems (ListServiceRulesResponse_Rules response)
             = concat (map (fun p => elems (ListServiceRulesResponse_Rules p)) (ps ++ [last]))).
Proof.
  split.
  - intros o v ps last Hquery Hserves Hmore Hlast Hfuel.
    unfold ListServicesPaginated. rewrite Hquery. unfold callBind.
    rewrite (pagedGet_complete c (servicesHandler c) servicesMeta servicesMore
               (fun acc p => append acc (ListServiceResponse_Services p))
               (servicesHandler_ok c)
               ps last fuel _ sent NilSlice Hserves Hmore Hlast Hfuel).
    do 2 eexists. split; [reflexivity|]. split.
    + apply afterPages_length.
    + now rewrite elems_accumulated.
  - intros serviceID ps last Hserves Hmore Hlast Hfuel.
    unfold ListServiceRules, callBind.
    rewrite (pagedGet_complete c (rulesHandler c) rulesMeta ListServiceRulesResponse_More
               (fun acc p => append acc (ListServiceRulesResponse_Rules p))
               (rulesHandler_ok c)
               ps last fuel _ sent (Slice []) Hserves Hmore Hlast Hfuel).
    do 2 eexists. split; [reflexivity|]. split.
    + apply afterPages_length.
    + cbn [ListServiceRulesResponse_Rules]. now rewrite elems_accumulated.
Qed.

(** C4: when the pages [ps] were served and the next request fails, or its
    response does not decode, the list operations return the error and a nil
    result: the items of the pages read so far are not returned. *)
Theorem paginated_lists_fail_fast (fuel : nat) (c : Client) (sent : list Request)
    (e : error) :
  (forall (o : ListServiceOptions) (v : Values) (ps : list ListServiceResponse),
     query_Values (OfListServiceOptions o) = (v, None) ->
     serves servicesMeta c ("/services?" +:+ Values_Encode v) sent 0%N ps ->
     Forall (fun p => servicesMore p = true) ps ->
     failsAfter servicesMeta c ("/services?" +:+ Values_Encode v) sent ps e ->
     (length ps < fuel)%nat ->
     (ListServicesPaginated fuel c o sent).1 = Returns (NilSlice, Some e))
  /\ (forall (serviceID : string) (ps : list ListServiceRulesResponse),
        serves rulesMeta c ("/services/" +:+ serviceID +:+ "/rules") sent 0%N ps ->
        Forall (fun p => ListServiceRulesResponse_More p = true) ps ->
        failsAfter rulesMeta c ("/services/" +:+ serviceID +:+ "/rules") sent ps e ->
        (length ps < fuel)%nat ->
        (ListServiceRules fuel c serviceID sent).1 = Returns (None, Some e)).
Proof.
  split.
  - intros o v ps Hquery Hserves Hmore Hfails Hfuel.
    unfold ListServicesPaginated. rewrite Hquery. unfold callBind.
    destruct (pagedGet_interrupted c (servicesHandler c) servicesMeta servicesMore
                (fun acc p => append acc (ListServiceResponse_Services p))
                (servicesHandler_ok c) (servicesHandler_err c)
                ps fuel _ sent NilSlice e Hserves Hmore Hfails Hfuel) as (sent' & Hrun).
    now rewrite Hrun.
  - intros serviceID ps Hserves Hmore Hfails Hfuel.
    unfold ListServiceRules, callBind.
    destruct (pagedGet_interrupted c (rulesHandler c) rulesMeta ListServiceRulesResponse_More
                (fun acc p => append acc (ListServiceRulesResponse_Rules p))
                (rulesHandler_ok c) (rulesHandler_err c)
                ps fuel _ sent (Slice []) e Hserves Hmore Hfails Hfuel) as (sent' & Hrun).
    now rewrite Hrun.
Qed.

End ListFacts.

(* ===================================================================== *)
(** * Round trips through JSON *)
(* ===================================================================== *)

Lemma result_bind_ok {A B} (m : result A) (k : A -> result B) (a : A) (r : result B) :
  m = Ok a -> k a = r -> (m ≫= k) = r.
Proof. intros -> <-. reflexivity. Qed.

Lemma decodeField_skip {T} `{Unmarshal T} (n : string) (l : list (string * json)) (cur : T) :
  Forall (fun kv => keyIs n kv.1 = false) l -> decodeField n l cur = Ok cur.
Proof.
  induction 1 as [|[k v] l Hk _ IH]; cbn [decodeField]; [reflexivity|].
  cbn [fst] in Hk. now rewrite Hk.
Qed.

Lemma decodeField_app_skip {T} `{Unmarshal T} (n : string) (l rest : list (string * json))
    (cur : T) (r : result T) :
  Forall (fun kv => keyIs n kv.1 = false) l ->
  decodeField n rest cur = r ->
  decodeField n (l ++ rest) cur = r.
Proof.
  intros Hl <-. induction Hl as [|[k v] l Hk _ IH]; cbn [app decodeField]; [reflexivity|].
  cbn [fst] in Hk. now rewrite Hk.
Qed.

Lemma decodeField_app_hit {T} `{Unmarshal T} (n : string) (l rest : list (string * json))
    (cur x : T) :
  decodeField n l cur = Ok x ->
  Forall (fun kv => keyIs n kv.1 = false) rest ->
  decodeField n (l ++ rest) cur = Ok x.
Proof.
  revert cur. induction l as [|[k v] l IH]; intros cur Hl Hrest;
    cbn [app decodeField] in *.
  - injection Hl as ->. now apply decodeField_skip.
  - destruct (keyIs n k); [|now apply IH].
    destruct (unmarshal v cur); [now apply IH | discriminate].
Qed.

Lemma Forall_memberOmitEmpty {T} `{Marshal T} (P : string * json -> Prop) (k : string) (x : T) :
  P (k, marshal x) -> Forall P (memberOmitEmpty k x).
Proof. intros HP. unfold memberOmitEmpty. destruct (isEmpty x); now repeat constructor. Qed.

Lemma Forall_member {T} `{Marshal T} (P : string * json -> Prop) (k : string) (x : T) :
  P (k, marshal x) -> Forall P (member k x).
Proof. intros HP. now repeat constructor. Qed.

Lemma existsb_false_In {A} (f : A -> bool) (l : list A) (a : A) :
  existsb f l = false -> In a l -> f a = false.
Proof.
  induction l as [|b l IH]; cbn; [tauto|].
  intros [Hb Hl]%orb_false_iff [->|Hin]; [exact Hb | now apply IH].
Qed.

(** The members promoted from an embedded struct do not touch the fields
    of the embedding struct. *)
Lemma Forall_promoted (own : list string) (n : string) (l : list (string * json)) :
  In n own -> Forall (fun kv => keyIs n kv.1 = false) (promoted own l).
Proof.
  intros Hn. unfold promoted. apply Forall_forall. intros kv Hkv.
  apply list_elem_of_filter in Hkv as [Hkv _].
  apply Is_true_true, negb_true_iff in Hkv.
  now apply (existsb_false_In _ own n) in Hkv.
Qed.

Lemma promoted_free (own : list string) (l : list (string * json)) :
  Forall (fun kv => existsb (fun n => keyIs n kv.1) own = false) l -> promoted own l = l.
Proof.
  induction 1 as [|kv l Hkv _ IH]; [reflexivity|].
  unfold promoted in *. rewrite filter_cons, IH.
  destruct (decide _) as [_|Hno]; [reflexivity|].
  rewrite Hkv in Hno. now destruct Hno.
Qed.

Lemma promoted_own (own : list string) (l : list (string * json)) :
  Forall (fun kv => existsb (fun n => keyIs n kv.1) own = true) l -> promoted own l = [].
Proof.
  induction 1 as [|kv l Hkv _ IH]; [reflexivity|].
  unfold promoted in *. rewrite filter_cons, IH.
  destruct (decide _) as [Hyes|_]; [|reflexivity].
  rewrite Hkv in Hyes. now destruct Hyes.
Qed.

(** Decoding the members of an embedding struct hands the embedded struct
    its own members. *)
Lemma promoted_embedded {T} `{StructEncode T} (own : list string) (x : T)
    (rest : list (string * json)) :
  keysFree (T := T) own ->
  Forall (fun kv => existsb (fun n => keyIs n kv.1) own = true) rest ->
  promoted own (promoted own (structMembers x) ++ rest) = structMembers x.
Proof.
  intros Hfree Hrest.
  assert (Hx : promoted own (structMembers x) = structMembers x).
  { apply promoted_free, Forall_forall. intros kv Hkv%list_elem_of_In.
    now apply (Hfree x). }
  unfold promoted at 1. rewrite filter_app. fold (promoted own (promoted own (structMembers x))).
  fold (promoted own rest). now rewrite (promoted_own own rest), app_nil_r, !Hx.
Qed.

Lemma decodeField_member_same {T} `{Unmarshal T} `{Marshal T} (valid : T -> Prop)
    (n : string) (x cur : T) :
  Lawful T valid -> valid x -> keyIs n n = true -> cur = zero ->
  decodeField n (member n x) cur = Ok x.
Proof.
  intros HL Hx Hn ->. unfold member. cbn [decodeField]. rewrite Hn.
  now rewrite (marshal_unmarshal x Hx).
Qed.

Lemma decodeField_omit_same {T} `{Unmarshal T} `{Marshal T} (valid : T -> Prop)
    (n : string) (x cur : T) :
  Lawful T valid -> valid x -> keyIs n n = true -> cur = zero ->
  decodeField n (memberOmitEmpty n x) cur = Ok x.
Proof.
  intros HL Hx Hn ->. unfold memberOmitEmpty.
  destruct (isEmpty x) eqn:Hempty.
  - cbn. now rewrite (empty_is_zero x Hx Hempty).
  - now apply (decodeField_member_same valid).
Qed.

(** ** Lawful types *)

#[export] Instance string_lawful : Lawful string (fun _ => True).
Proof.
  split; [reflexivity|].
  intros x _ Hx. cbn in Hx. now apply String.eqb_eq in Hx.
Qed.

#[export] Instance bool_lawful : Lawful bool (fun _ => True).
Proof. split; [reflexivity|]. now intros [|] _ Hx. Qed.

#[export] Instance uint_lawful : Lawful uint uint_valid.
Proof.
  split.
  - intros x Hx. unfold uint_valid in Hx. cbn.
    assert (Hrange : ((0 <=? Z.of_N x) && (Z.of_N x <? 2 ^ uintBits))%bool = true).
    { apply andb_true_iff. split; [apply Z.leb_le; lia|].
      apply Z.ltb_lt. change (2 ^ uintBits) with (Z.of_N (2 ^ 64)). lia. }
    now rewrite Hrange, N2Z.id.
  - intros x _ Hx. cbn in Hx. now apply N.eqb_eq in Hx.
Qed.

#[export] Instance uint_nonnull : NonNull uint uint_valid.
Proof. intros x _. discriminate. Qed.

#[export] Instance struct_nonnull {T} `{StructEncode T} (valid : T -> Prop) : NonNull T valid.
Proof. intros x _. discriminate. Qed.

#[export] Instance pointer_lawful {T} `{Unmarshal T} `{Marshal T} (valid : T -> Prop) :
  Lawful T valid -> NonNull T valid -> Lawful (option T) (pointer_valid valid).
Proof.
  intros HL HN. split.
  - intros [x|] Hx; [|reflexivity]. cbn in Hx |- *.
    pose proof (marshal_nonnull x Hx) as Hnull.
    pose proof (marshal_unmarshal x Hx) as Hrt.
    destruct (marshal x); try contradiction; now rewrite Hrt.
  - now intros [x|] _ Hx.
Qed.

Lemma mapM_roundtrip {T} `{Unmarshal T} `{Marshal T} (valid : T -> Prop) (l : list T) :
  Lawful T valid -> Forall valid l ->
  mapM (M := result) (fun j => unmarshal j zero) (map marshal l) = Ok l.
Proof.
  intros HL. induction 1 as [|x l Hx _ IH]; [reflexivity|].
  cbn. rewrite (marshal_unmarshal x Hx). cbn. now rewrite IH.
Qed.

#[export] Instance slice_lawful {T} `{Unmarshal T} `{Marshal T} (valid : T -> Prop) :
  Lawful T valid -> Lawful (slice T) (slice_valid valid).
Proof.
  intros HL. split.
  - intros [|l] Hx; [reflexivity|]. destruct Hx as [_ Hl]. cbn.
    now rewrite (mapM_roundtrip valid l HL Hl).
  - intros [|[|x l]] Hx Hempty; [reflexivity| |discriminate].
    now destruct Hx as [Hne _].
Qed.

Lemma struct_lawful {T} `{StructDecode T} `{StructEncode T} (valid : T -> Prop) :
  (forall x, valid x -> structDecode (structMembers x) structZero = Ok x) ->
  Lawful T valid.
Proof. intros Hrt. split; [exact Hrt | discriminate]. Qed.

Lemma pointer_valid_trivial {T} (p : option T) : pointer_valid (fun _ => True) p.
Proof. now destruct p. Qed.

Ltac solve_key := vm_compute; reflexivity.

Ltac solve_valid :=
  first [ exact I | assumption | apply pointer_valid_trivial
        | cbn in *; tauto ].

(** The members of one field do not touch the field called [n]. *)
Ltac skip_segment :=
  first [ apply Forall_memberOmitEmpty; solve_key
        | apply Forall_member; solve_key
        | apply Forall_promoted; cbn; tauto ].

Ltac skip_rest_with tac :=
  repeat (apply Forall_app_2; [tac ()|]); tac ().

Ltac skip_rest := skip_rest_with ltac:(fun _ => skip_segment).

Ltac hit_segment :=
  first [ eapply decodeField_omit_same;
            [typeclasses eauto | solve_valid | solve_key | reflexivity]
        | eapply decodeField_member_same;
            [typeclasses eauto | solve_valid | solve_key | reflexivity] ].

Ltac decode_field :=
  lazymatch goal with
  | |- decodeField _ (_ ++ _) _ = _ =>
    first [ apply decodeField_app_skip; [skip_segment | decode_field]
          | apply decodeField_app_hit; [hit_segment | skip_rest] ]
  | |- decodeField _ _ _ = _ => hit_segment
  end.

Ltac decode_embedded roundtrip free :=
  rewrite promoted_embedded;
  [ apply roundtrip; solve_valid
  | exact free
  | skip_rest_with ltac:(fun _ => apply Forall_memberOmitEmpty; solve_key) ].

Ltac decode_struct dec enc :=
  cbn [structDecode structMembers dec enc];
  repeat (eapply result_bind_ok; [decode_field|]);
  reflexivity.

Section StructRoundTrips.
Context {D : Declarations} {L : DeclarationLaws D}.

Lemma InlineModel_roundtrip (m : InlineModel) :
  structDecode (structMembers m) structZero = Ok m.
Proof. destruct m. decode_struct InlineModel_decode InlineModel_encode. Qed.


Lemma IncidentUrgencyType_roundtrip (t : IncidentUrgencyType) :
  structDecode (structMembers t) structZero = Ok t.
Proof. destruct t. decode_struct IncidentUrgencyType_decode IncidentUrgencyType_encode. Qed.

#[export] Instance InlineModel_lawful : Lawful InlineModel (fun _ => True) :=
  struct_lawful _ (fun m _ => InlineModel_roundtrip m).

#[export] Instance IncidentUrgencyType_lawful : Lawful IncidentUrgencyType (fun _ => True) :=
  struct_lawful _ (fun t _ => IncidentUrgencyType_roundtrip t).

Lemma ScheduledAction_roundtrip (a : ScheduledAction) :
  structDecode (structMembers a) structZero = Ok a.
Proof. destruct a. decode_struct ScheduledAction_decode ScheduledAction_encode. Qed.

#[export] Instance ScheduledAction_lawful : Lawful ScheduledAction (fun _ => True) :=
  struct_lawful _ (fun a _ => ScheduledAction_roundtrip a).

Lemma IncidentUrgencyRule_roundtrip (r : IncidentUrgencyRule) :
  structDecode (structMembers r) structZero = Ok r.
Proof. destruct r. decode_struct IncidentUrgencyRule_decode IncidentUrgencyRule_encode. Qed.

#[export] Instance IncidentUrgencyRule_lawful : Lawful IncidentUrgencyRule (fun _ => True) :=
  struct_lawful _ (fun r _ => IncidentUrgencyRule_roundtrip r).

Lemma SupportHours_roundtrip (h : SupportHours) :
  SupportHours_valid h -> structDecode (structMembers h) structZero = Ok h.
Proof.
  destruct h. unfold SupportHours_valid. intros Hv.
  decode_struct SupportHours_decode SupportHours_encode.
Qed.

#[export] Instance SupportHours_lawful : Lawful SupportHours SupportHours_valid :=
  struct_lawful _ SupportHours_roundtrip.

Lemma AlertGroupParamsConfig_roundtrip (c : AlertGroupParamsConfig) :
  AlertGroupParamsConfig_valid c -> structDecode (structMembers c) structZero = Ok c.
Proof.
  destruct c. unfold AlertGroupParamsConfig_valid. intros [Htimeout Hfields].
  decode_struct AlertGroupParamsConfig_decode AlertGroupParamsConfig_encode.
Qed.

#[export] Instance AlertGroupParamsConfig_lawful
  : Lawful AlertGroupParamsConfig AlertGroupParamsConfig_valid :=
  struct_lawful _ AlertGroupParamsConfig_roundtrip.

Lemma AlertGroupingParameters_roundtrip (p : AlertGroupingParameters) :
  AlertGroupingParameters_valid p -> structDecode (structMembers p) structZero = Ok p.
Proof.
  destruct p. unfold AlertGroupingParameters_valid. intros Hv.
  decode_struct AlertGroupingParameters_decode AlertGroupingParameters_encode.
Qed.

#[export] Instance AlertGroupingParameters_lawful
  : Lawful AlertGroupingParameters AlertGroupingParameters_valid :=
  struct_lawful _ AlertGroupingParameters_roundtrip.

#[export] Instance APIObject_lawful : Lawful APIObject APIObject_valid :=
  struct_lawful _ APIObject_roundtrip.

Lemma Integration_roundtrip (i : Integration) :
  Integration_valid i -> structDecode (structMembers i) structZero = Ok i.
Proof.
  destruct i. unfold Integration_valid. intros (Hobject & Hservice & Hvendor).
  cbn [structDecode structMembers Integration_decode Integration_encode].
  eapply result_bind_ok;
    [decode_embedded APIObject_roundtrip APIObject_free_Integration|].
  repeat (eapply result_bind_ok; [decode_field|]).
  reflexivity.
Qed.

#[export] Instance Integration_lawful : Lawful Integration Integration_valid :=
  struct_lawful _ Integration_roundtrip.

Lemma Service_roundtrip (s : Service) :
  Service_valid s -> structDecode (structMembers s) structZero = Ok s.
Proof.
  destruct s. unfold Service_valid.
  intros (Hobject & Hresolve & Hack & Hintegrations & Hpolicy & Hteams & Hhours
          & Hactions & Htimeout & Hparams).
  cbn [structDecode structMembers Service_decode Service_encode].
  eapply result_bind_ok;
    [decode_embedded APIObject_roundtrip APIObject_free_Service|].
  repeat (eapply result_bind_ok; [decode_field|]).
  reflexivity.
Qed.


End StructRoundTrips.

Section Scenario.
Context {D : Declarations} {Q : QueryEncoder QueryInput}.

(** C7: [GetService("PXXXXXX", nil)], when the client answers its request
    with a response whose body is the envelope of a service with the members
    [id] and [name], returns without an error a service whose [ID] is
    [PXXXXXX] and whose [Name] is [Web]. *)
Theorem GetService_returns_the_service (c : Client) (sent : list Request)
    (resp : Response) (object : APIObject) :
  Client_do c sent
    {| Request_Method := GET;
       Request_Path := "/services/PXXXXXX?"
                       +:+ Values_Encode (query_Values (OfGetServiceOptions None)).1;
       Request_Offset := None; Request_Body := None |}
  = (Some resp, None) ->
  Response_Body resp = dq "{'service':{'id':'PXXXXXX','name':'Web'}}" ->
  structDecode [("id", JStr "PXXXXXX")] structZero = Ok object ->
  APIObject_ID object = "PXXXXXX" ->
  exists s,
    (GetService c "PXXXXXX" None sent).1 = Returns (Some s, None)
    /\ Service_ID s = "PXXXXXX"
    /\ Service_Name s = "Web".
Proof.
  intros Hreply Hbody Hobject Hid.
  assert (Hparse : parseJSON (dq "{'service':{'id':'PXXXXXX','name':'Web'}}")
                   = Ok (JObj [("service", JObj [("id", JStr "PXXXXXX");
                                                 ("name", JStr "Web")])]))
    by (vm_compute; reflexivity).
  assert (Hpromoted : promoted Service_keys [("id", JStr "PXXXXXX"); ("name", JStr "Web")]
                      = [("id", JStr "PXXXXXX")])
    by (vm_compute; reflexivity).
  assert (Hdecode : exists s,
             structDecode [("id", JStr "PXXXXXX"); ("name", JStr "Web")]
               (structZero : Service) = Ok s
             /\ Service_ID s = "PXXXXXX" /\ Service_Name s = "Web").
  { eexists. split.
    - cbn [structDecode Service_decode]. rewrite Hpromoted.
      eapply result_bind_ok; [exact Hobject|].
      repeat (eapply result_bind_ok;
              [first [ apply decodeField_skip; repeat constructor; solve_key
                     | reflexivity ]|]).
      reflexivity.
    - split; [exact Hid | reflexivity]. }
  destruct Hdecode as (s & Hs & HsID & HsName).
  exists s. split; [|now split].
  unfold GetService.
  destruct (query_Values (OfGetServiceOptions None)) as [v err]. cbn [fst] in Hreply.
  unfold callBind, get, send.
  change ("/services/" +:+ "PXXXXXX" +:+ "?" +:+ Values_Encode v)
    with ("/services/PXXXXXX?" +:+ Values_Encode v).
  rewrite Hreply. cbn [callLift fst].
  unfold getServiceFromResponse, decodeJSON. rewrite Hbody, Hparse.
  cbn [outcomeBind unmarshal map_unmarshal decodeMap struct_unmarshal zero].
  rewrite Hs. cbn [decodeMap]. now rewrite lookup_insert_eq.
Qed.

End Scenario.



(* ===================================================================== *)
(** * The sample setting *)
(* ===================================================================== *)

Lemma Sample_Object_roundtrip (o : @APIObject Sample.declarations) :
  structDecode (structMembers o) structZero = Ok o.
Proof.
  destruct o as [id].
  cbn [structDecode structMembers APIObject_decode APIObject_encode Sample.declarations
       Sample.Object_decode Sample.Object_encode].
  eapply result_bind_ok; [decode_field|]. reflexivity.
Qed.

Lemma Sample_Object_free (own : list string) :
  existsb (fun n => keyIs n "id") own = false ->
  keysFree (T := @APIObject Sample.declarations) own.
Proof.
  intros Hown [id] kv Hkv.
  cbn [structMembers APIObject_encode Sample.declarations Sample.Object_encode] in Hkv.
  unfold memberOmitEmpty in Hkv.
  destruct (isEmpty _); [destruct Hkv|].
  destruct Hkv as [<-|[]]. exact Hown.
Qed.

Lemma Sample_raw_lawful :
  @Lawful json Sample.raw_unmarshal Sample.raw_marshal (fun _ => True).
Proof.
  split; [reflexivity|].
  intros [] _ Hempty; cbn in Hempty; try discriminate. reflexivity.
Qed.

Lemma Sample_laws : DeclarationLaws Sample.declarations.
Proof.
  refine (Build_DeclarationLaws Sample.declarations
            (fun _ => True) _ _ _ (fun _ => True) _ (fun _ => True) _).
  - intros a _. apply Sample_Object_roundtrip.
  - apply Sample_Object_free. vm_compute. reflexivity.
  - apply Sample_Object_free. vm_compute. reflexivity.
  - exact Sample_raw_lawful.
  - exact Sample_raw_lawful.
Defined.

(** ** The statements at concrete inputs *)

(** C1 on an empty object. *)
Lemma missing_root_key_on_empty_object :
  getServiceFromResponse (Sample.scripted []) (Some Sample.emptyObject) None
  = Returns (None, Some (Errorf "JSON response does not have service field"))
  /\ getIntegrationFromResponse (Sample.scripted []) (Some Sample.emptyObject) None
     = Returns (None, Some (Errorf "JSON response does not have integration field"))
  /\ getServiceRuleFromResponse (Sample.scripted []) (Some Sample.emptyObject) None
     = Returns (None, None, Some (Errorf "JSON response does not have rule field")).
Proof.
  destruct (missing_root_key_is_reported (Sample.scripted []) Sample.emptyObject)
    as (Hservice & Hintegration & Hrule).
  split; [|split].
  - apply (Hservice ∅); reflexivity.
  - apply (Hintegration ∅); reflexivity.
  - apply (Hrule ∅); reflexivity.
Defined.

(** C2 on a body that is no JSON text: the service and rule helpers report
    the syntax error, the integration helper reports [<nil>]. *)
Lemma decode_failure_on_html :
  getServiceFromResponse (Sample.scripted []) (Some Sample.notJSON) None
  = Returns (None, Some (Errorf "Could not decode JSON response: json: syntax error"))
  /\ getServiceRuleFromResponse (Sample.scripted []) (Some Sample.notJSON) None
     = Returns (None, None,
                Some (Errorf "Could not decode JSON response: json: syntax error"))
  /\ getIntegrationFromResponse (Sample.scripted []) (Some Sample.notJSON) None
     = Returns (None, Some (Errorf "Could not decode JSON response: <nil>")).
Proof.
  destruct (decode_failure_is_reported (Sample.scripted []) Sample.notJSON json_SyntaxError)
    as (Hservice & Hrule & Hintegration).
  split; [|split].
  - apply Hservice. reflexivity.
  - apply Hrule. reflexivity.
  - apply Hintegration. reflexivity.
Defined.

(** C3 on the integration [Sample.mail]: the body of [UpdateIntegration]
    has the members of the integration and no member [integration]. *)
Lemma UpdateIntegration_sends_the_bare_record :
  sentBody <$> (UpdateIntegration (Sample.scripted []) "S1" Sample.mail []).2
  = [Some (JObj [("id", JStr "I1"); ("name", JStr "Mail")])]
  /\ JObj [("id", JStr "I1"); ("name", JStr "Mail")]
     <> envelope "integration" (JObj [("id", JStr "I1"); ("name", JStr "Mail")]).
Proof.
  destruct (request_bodies (Sample.scripted []) [] Sample.web
              Sample.mail None "S1" "R1") as (_ & _ & _ & _ & _ & Hbody & Hbare).
  split; [exact Hbody | exact Hbare].
Defined.

(** C6 on a refused connection. *)
Lemma refused_connection_panics :
  getServiceFromResponse (Sample.scripted []) None (Some Sample.refused) = Panics.
Proof.
  exact (proj1 (failed_request_with_nil_response (Sample.scripted []) Sample.refused)).
Defined.

(** The same through [GetService]: the client reports a refused connection
    with a nil response, and the call panics. *)
Example GetService_on_refused_connection :
  (GetService (Q := Sample.query) (Sample.scripted []) "PXXXXXX" None []).1 = Panics.
Proof. reflexivity. Qed.

(** C8 on the service [S1]. *)
Lemma CreateServiceRule_path_ends_with_a_slash :
  Request_Path <$> (CreateServiceRule (Sample.scripted []) "S1"
                      (Some (Sample.ruleOf "R1")) []).2
  = ["/services/S1/rules/"]
  /\ "/services/S1/rules/" <> "/services/S1/rules".
Proof.
  destruct (service_rule_paths 1 (Sample.scripted []) [] "S1" "R1"
              (Some (Sample.ruleOf "R1"))) as (_ & _ & _ & _ & Hcreate & Hslash).
  split; [exact Hcreate | exact Hslash].
Defined.

(** C10 with a query encoder that always fails. *)
Lemma GetService_with_failing_encoder :
  GetService (Q := Sample.failingQuery)
    (Sample.scripted [Sample.ok "{'service':{'id':'PXXXXXX','name':'Web'}}"])
    "PXXXXXX" None []
  = GetService (Q := Sample.query)
      (Sample.scripted [Sample.ok "{'service':{'id':'PXXXXXX','name':'Web'}}"])
      "PXXXXXX" None [].
Proof.
  exact (proj1 (GetService_ignores_query_error (Q := Sample.query)
                  (fun _ => Some Sample.failure)
                  (Sample.scripted [Sample.ok "{'service':{'id':'PXXXXXX','name':'Web'}}"])
                  "PXXXXXX" None [])).
Defined.

(** The scenario evaluated with the failing query encoder: the service, no
    error, one GET. *)
Example GetService_scenario_evaluated :
  GetService (Q := Sample.failingQuery)
    (Sample.scripted [Sample.ok "{'service':{'id':'PXXXXXX','name':'Web'}}"])
    "PXXXXXX" None []
  = (Returns (Some Sample.web, None),
     [{| Request_Method := GET; Request_Path := "/services/PXXXXXX?";
         Request_Offset := None; Request_Body := None |}]).
Proof. reflexivity. Qed.

(** C7 on the sample client. *)
Lemma GetService_returns_the_service_on_sample :
  exists s,
    (GetService (Q := Sample.query)
       (Sample.scripted [Sample.ok "{'service':{'id':'PXXXXXX','name':'Web'}}"])
       "PXXXXXX" None []).1
    = Returns (Some s, None)
    /\ Service_ID s = "PXXXXXX"
    /\ Service_Name s = "Web".
Proof.
  apply (GetService_returns_the_service (Q := Sample.query)
           (Sample.scripted [Sample.ok "{'service':{'id':'PXXXXXX','name':'Web'}}"]) []
           {| Response_Status := "200 OK";
              Response_Body := dq "{'service':{'id':'PXXXXXX','name':'Web'}}" |}
           {| Sample.Object_ID := "PXXXXXX" |}); reflexivity.
Defined.


(** C5 on the two pages of the scenario, for services and for rules. *)
Lemma two_pages_are_concatenated :
  (exists services sent',
     ListServicesPaginated (Q := Sample.query) 3
       (Sample.scripted [Sample.ok Sample.page1Text; Sample.ok Sample.page2Text])
       Sample.noOptions []
     = (Returns (services, None), sent')
     /\ length sent' = 2%nat
     /\ elems services = [Sample.named "S1"; Sample.named "S2"])
  /\ (exists response sent',
        ListServiceRules 3
          (Sample.scripted [Sample.ok Sample.rulePage1Text; Sample.ok Sample.rulePage2Text])
          "S1" []
        = (Returns (Some response, None), sent')
        /\ length sent' = 2%nat
        /\ elems (ListServiceRulesResponse_Rules response)
           = [Some (Sample.ruleOf "R1"); Some (Sample.ruleOf "R2")]).
Proof.
  split.
  - apply (proj1 (paginated_lists_concatenate (Q := Sample.query) 3
                    (Sample.scripted [Sample.ok Sample.page1Text; Sample.ok Sample.page2Text])
                    []) Sample.noOptions [] [Sample.page1] Sample.page2).
    + reflexivity.
    + cbn. repeat split; eexists; (split; reflexivity).
    + repeat constructor.
    + reflexivity.
    + cbn. lia.
  - apply (proj2 (paginated_lists_concatenate (Q := Sample.query) 3
                    (Sample.scripted [Sample.ok Sample.rulePage1Text;
                                      Sample.ok Sample.rulePage2Text])
                    []) "S1" [Sample.rulePage1] Sample.rulePage2).
    + cbn. repeat split; eexists; (split; reflexivity).
    + repeat constructor.
    + reflexivity.
    + cbn. lia.
Defined.

(** C4 on a first page followed by a refused connection (services) and by a
    body that is no JSON text (rules). *)
Lemma second_page_failure_discards_the_first :
  (ListServicesPaginated (Q := Sample.query) 3
     (Sample.scripted [Sample.ok Sample.page1Text]) Sample.noOptions []).1
  = Returns (NilSlice, Some Sample.refused)
  /\ (ListServiceRules 3
        (Sample.scripted [Sample.ok Sample.rulePage1Text; Sample.ok "<html>"]) "S1" []).1
     = Returns (None, Some json_SyntaxError).
Proof.
  split.
  - apply (proj1 (paginated_lists_fail_fast (Q := Sample.query) 3
                    (Sample.scripted [Sample.ok Sample.page1Text]) [] Sample.refused)
             Sample.noOptions [] [Sample.page1]).
    + reflexivity.
    + cbn. repeat split; eexists; (split; reflexivity).
    + repeat constructor.
    + left. eexists. reflexivity.
    + cbn. lia.
  - apply (proj2 (paginated_lists_fail_fast (Q := Sample.query) 3
                    (Sample.scripted [Sample.ok Sample.rulePage1Text; Sample.ok "<html>"])
                    [] json_SyntaxError)
             "S1" [Sample.rulePage1]).
    + cbn. repeat split; eexists; (split; reflexivity).
    + repeat constructor.
    + right. eexists. split; reflexivity.
    + cbn. lia.
Defined.

(* ===================================================================== *)
(** * More on unwrapping the envelope *)
(* ===================================================================== *)

Lemma decodeMap_lookup {T} `{Unmarshal T} (ms : list (string * json))
    (cur m : gmap string T) (k : string) :
  decodeMap ms cur = Ok m ->
  m !! k = match lastMember k ms with
           | Some v => match unmarshal v zero with
                       | Ok x => Some x
                       | Err _ => None
                       end
           | None => cur !! k
           end.
Proof.
  revert cur. induction ms as [|[k' v] ms IH]; intros cur Hdecode;
    cbn [decodeMap lastMember] in *.
  - now injection Hdecode as ->.
  - destruct (unmarshal v zero) as [x|e] eqn:Hv; [|discriminate].
    rewrite (IH _ Hdecode).
    destruct (lastMember k ms) as [v'|]; [reflexivity|].
    destruct (String.eqb_spec k' k) as [->|Hne].
    + now rewrite Hv, lookup_insert_eq.
    + now rewrite lookup_insert_ne.
Qed.

Lemma decodeMap_failure {T} `{Unmarshal T} (ms : list (string * json))
    (cur : gmap string T) (k : string) (v : json) (e : error) :
  In (k, v) ms -> unmarshal v zero = Err e -> exists e', decodeMap ms cur = Err e'.
Proof.
  revert cur. induction ms as [|[k' v'] ms IH]; intros cur Hin Hv; [destruct Hin|].
  cbn [decodeMap]. destruct Hin as [Heq|Hin].
  - injection Heq as -> ->. rewrite Hv. now eexists.
  - destruct (unmarshal v' zero); [now apply IH | now eexists].
Qed.

Lemma lastMember_In (k : string) (ms : list (string * json)) (v : json) :
  lastMember k ms = Some v -> In (k, v) ms.
Proof.
  induction ms as [|[k' v'] ms IH]; [discriminate|].
  cbn [lastMember]. destruct (lastMember k ms) as [v''|].
  - intros Hv. right. now apply IH.
  - destruct (String.eqb_spec k' k) as [->|]; [|discriminate].
    intros [= ->]. now left.
Qed.

(** After a decode that succeeded, the entry under [k] is the decoding of
    the last member named [k]. *)
Lemma decodeMap_last {T} `{Unmarshal T} (ms : list (string * json))
    (target : gmap string T) (k : string) (v : json) :
  decodeMap ms (∅ : gmap string T) = Ok target ->
  lastMember k ms = Some v ->
  exists x, unmarshal v zero = Ok x /\ target !! k = Some x.
Proof.
  intros Hdecode Hlast.
  pose proof (decodeMap_lookup ms ∅ target k Hdecode) as Hlookup.
  rewrite Hlast in Hlookup.
  destruct (unmarshal v zero) as [x|e] eqn:Hv; [now exists x|].
  destruct (decodeMap_failure ms (∅ : gmap string T) k v e (lastMember_In k ms v Hlast) Hv)
    as [e' He'].
  congruence.
Qed.

Lemma decodeMap_without {T} `{Unmarshal T} (ms : list (string * json))
    (target : gmap string T) (k : string) :
  decodeMap ms (∅ : gmap string T) = Ok target ->
  lastMember k ms = None ->
  target !! k = None.
Proof.
  intros Hdecode Hlast.
  rewrite (decodeMap_lookup ms ∅ target k Hdecode), Hlast. apply lookup_empty.
Qed.

Lemma struct_rejects_other_values {T} `{StructDecode T} (v : json) (cur : T) :
  notObject v = true -> unmarshal v cur = Err json_UnmarshalTypeError.
Proof. now destruct v. Qed.

Section EnvelopeMembers.
Context {D : Declarations}.

(** What each helper makes of a body that reads as the object [ms] and
    decodes to [target]: the entry of [target] under the root key. *)
Lemma getServiceFromResponse_decoded (c : Client) (resp : Response)
    (ms : list (string * json)) (target : gmap string Service) :
  parseJSON (Response_Body resp) = Ok (JObj ms) ->
  decodeMap ms (∅ : gmap string Service) = Ok target ->
  getServiceFromResponse c (Some resp) None
  = match target !! "service" with
    | Some s => Returns (Some s, None)
    | None => Returns (None, Some (Errorf "JSON response does not have service field"))
    end.
Proof.
  intros Hparse Hdecode. unfold getServiceFromResponse, decodeJSON.
  rewrite Hparse. cbn [unmarshal map_unmarshal outcomeBind]. now rewrite Hdecode.
Qed.

Lemma getIntegrationFromResponse_decoded (c : Client) (resp : Response)
    (ms : list (string * json)) (target : gmap string Integration) :
  parseJSON (Response_Body resp) = Ok (JObj ms) ->
  decodeMap ms (∅ : gmap string Integration) = Ok target ->
  getIntegrationFromResponse c (Some resp) None
  = match target !! "integration" with
    | Some i => Returns (Some i, None)
    | None => Returns (None, Some (Errorf "JSON response does not have integration field"))
    end.
Proof.
  intros Hparse Hdecode. unfold getIntegrationFromResponse, decodeJSON.
  rewrite Hparse. cbn [unmarshal map_unmarshal outcomeBind]. now rewrite Hdecode.
Qed.

Lemma getServiceRuleFromResponse_decoded (c : Client) (resp : Response)
    (ms : list (string * json)) (target : gmap string ServiceRule) :
  parseJSON (Response_Body resp) = Ok (JObj ms) ->
  decodeMap ms (∅ : gmap string ServiceRule) = Ok target ->
  getServiceRuleFromResponse c (Some resp) None
  = match target !! "rule" with
    | Some r => Returns (Some r, Some resp, None)
    | None => Returns (None, None, Some (Errorf "JSON response does not have rule field"))
    end.
Proof.
  intros Hparse Hdecode. unfold getServiceRuleFromResponse, decodeJSON.
  rewrite Hparse. cbn [unmarshal map_unmarshal outcomeBind]. now rewrite Hdecode.
Qed.

(** X1: when the body is an object all of whose members decode, each helper
    returns, without an error, the decoding of the last member named
    exactly after its root key: of two members with the root key the later
    one counts.  The rule helper returns the response with it. *)
Theorem last_root_member_is_returned (c : Client) (resp : Response)
    (ms : list (string * json)) (v : json) :
  parseJSON (Response_Body resp) = Ok (JObj ms) ->
  (forall target : gmap string Service,
     decodeMap ms (∅ : gmap string Service) = Ok target ->
     lastMember "service" ms = Some v ->
     exists s, unmarshal v zero = Ok s
               /\ getServiceFromResponse c (Some resp) None = Returns (Some s, None))
  /\ (forall target : gmap string Integration,
        decodeMap ms (∅ : gmap string Integration) = Ok target ->
        lastMember "integration" ms = Some v ->
        exists i, unmarshal v zero = Ok i
                  /\ getIntegrationFromResponse c (Some resp) None = Returns (Some i, None))
  /\ (forall target : gmap string ServiceRule,
        decodeMap ms (∅ : gmap string ServiceRule) = Ok target ->
        lastMember "rule" ms = Some v ->
        exists r, unmarshal v zero = Ok r
                  /\ getServiceRuleFromResponse c (Some resp) None
                     = Returns (Some r, Some resp, None)).
Proof.
  intros Hparse. repeat split; intros target Hdecode Hlast;
    destruct (decodeMap_last ms target _ v Hdecode Hlast) as (x & Hx & Hlookup);
    exists x; (split; [exact Hx|]).
  - now rewrite (getServiceFromResponse_decoded c resp ms target Hparse Hdecode), Hlookup.
  - now rewrite (getIntegrationFromResponse_decoded c resp ms target Hparse Hdecode), Hlookup.
  - now rewrite (getServiceRuleFromResponse_decoded c resp ms target Hparse Hdecode), Hlookup.
Qed.

(** X2: a [null] under the root key is no error: when the last member named
    after the root key is [null] (and the members decode), each helper
    returns the zero resource, not nil, with a nil error. *)
Theorem null_root_member_gives_the_zero_resource (c : Client) (resp : Response)
    (ms : list (string * json)) :
  parseJSON (Response_Body resp) = Ok (JObj ms) ->
  (forall target : gmap string Service,
     decodeMap ms (∅ : gmap string Service) = Ok target ->
     lastMember "service" ms = Some JNull ->
     getServiceFromResponse c (Some resp) None = Returns (Some structZero, None))
  /\ (forall target : gmap string Integration,
        decodeMap ms (∅ : gmap string Integration) = Ok target ->
        lastMember "integration" ms = Some JNull ->
        getIntegrationFromResponse c (Some resp) None = Returns (Some structZero, None))
  /\ (forall target : gmap string ServiceRule,
        decodeMap ms (∅ : gmap string ServiceRule) = Ok target ->
        lastMember "rule" ms = Some JNull ->
        getServiceRuleFromResponse c (Some resp) None
        = Returns (Some structZero, Some resp, None)).
Proof.
  intros Hparse. repeat split; intros target Hdecode Hlast;
    destruct (decodeMap_last ms target _ JNull Hdecode Hlast) as (x & Hx & Hlookup);
    injection Hx as <-.
  - now rewrite (getServiceFromResponse_decoded c resp ms target Hparse Hdecode), Hlookup.
  - now rewrite (getIntegrationFromResponse_decoded c resp ms target Hparse Hdecode), Hlookup.
  - now rewrite (getServiceRuleFromResponse_decoded c resp ms target Hparse Hdecode), Hlookup.
Qed.

(** X3: the root key is matched exactly, unlike the members of a struct:
    when no member of the object is named exactly after the root key (one
    may be named [Service] or [RULE]) and the members decode, each helper
    reports the missing field. *)
Theorem root_key_is_matched_exactly (c : Client) (resp : Response)
    (ms : list (string * json)) :
  parseJSON (Response_Body resp) = Ok (JObj ms) ->
  (forall target : gmap string Service,
     decodeMap ms (∅ : gmap string Service) = Ok target ->
     lastMember "service" ms = None ->
     getServiceFromResponse c (Some resp) None
     = Returns (None, Some (Errorf "JSON response does not have service field")))
  /\ (forall target : gmap string Integration,
        decodeMap ms (∅ : gmap string Integration) = Ok target ->
        lastMember "integration" ms = None ->
        getIntegrationFromResponse c (Some resp) None
        = Returns (None, Some (Errorf "JSON response does not have integration field")))
  /\ (forall target : gmap string ServiceRule,
        decodeMap ms (∅ : gmap string ServiceRule) = Ok target ->
        lastMember "rule" ms = None ->
        getServiceRuleFromResponse c (Some resp) None
        = Returns (None, None, Some (Errorf "JSON response does not have rule field"))).
Proof.
  intros Hparse. repeat split; intros target Hdecode Hlast;
    pose proof (decodeMap_without ms target _ Hdecode Hlast) as Hlookup.
  - now rewrite (getServiceFromResponse_decoded c resp ms target Hparse Hdecode), Hlookup.
  - now rewrite (getIntegrationFromResponse_decoded c resp ms target Hparse Hdecode), Hlookup.
  - now rewrite (getServiceRuleFromResponse_decoded c resp ms target Hparse Hdecode), Hlookup.
Qed.

(** X4: every member of the envelope is decoded as the resource, not only
    the one under the root key: when some member of the object is a number,
    a string, a boolean or an array, each helper fails with its decode
    error, whatever stands under the root key. *)
Theorem other_members_must_decode_too (c : Client) (resp : Response)
    (ms : list (string * json)) (k : string) (v : json) :
  parseJSON (Response_Body resp) = Ok (JObj ms) ->
  In (k, v) ms ->
  notObject v = true ->
  (exists dErr,
     getServiceFromResponse c (Some resp) None
     = Returns (None, Some (Errorf ("Could not decode JSON response: " +:+ Error dErr))))
  /\ (exists dErr,
        getServiceRuleFromResponse c (Some resp) None
        = Returns (None, None,
                   Some (Errorf ("Could not decode JSON response: " +:+ Error dErr))))
  /\ getIntegrationFromResponse c (Some resp) None
     = Returns (None, Some (Errorf "Could not decode JSON response: <nil>")).
Proof.
  intros Hparse Hin Hv. repeat split.
  - destruct (decodeMap_failure ms (∅ : gmap string Service) k v _ Hin
                (struct_rejects_other_values v structZero Hv)) as [e He].
    exists e. unfold getServiceFromResponse, decodeJSON. rewrite Hparse.
    cbn [unmarshal map_unmarshal outcomeBind]. now rewrite He.
  - destruct (decodeMap_failure ms (∅ : gmap string ServiceRule) k v _ Hin
                (struct_rejects_other_values v structZero Hv)) as [e He].
    exists e. unfold getServiceRuleFromResponse, decodeJSON. rewrite Hparse.
    cbn [unmarshal map_unmarshal outcomeBind]. now rewrite He.
  - destruct (decodeMap_failure ms (∅ : gmap string Integration) k v _ Hin
                (struct_rejects_other_values v structZero Hv)) as [e He].
    unfold getIntegrationFromResponse, decodeJSON. rewrite Hparse.
    cbn [unmarshal map_unmarshal outcomeBind]. now rewrite He.
Qed.

End EnvelopeMembers.

(* ===================================================================== *)
(** * More on the operations *)
(* ===================================================================== *)

Section OperationFacts.
Context {D : Declarations} {Q : QueryEncoder QueryInput}.

(** X5: when the client reports an error for the request, every integration
    and rule operation, and every delete, returns that error as it is, with
    a nil resource and whatever the response pointer is; the three service
    operations do so when the client hands back a response with the error. *)
Theorem request_errors_are_returned_unchanged (c : Client) (sent : list Request)
    (resp : option Response) (e : error) (id ruleID : string) (s : Service)
    (i : Integration) (rule : option ServiceRule) (o : option GetServiceOptions)
    (oi : GetIntegrationOptions) :
  (forall req, Client_do c sent req = (resp, Some e)) ->
  (CreateIntegration c id i sent).1 = Returns (None, Some e)
  /\ (UpdateIntegration c id i sent).1 = Returns (None, Some e)
  /\ ((query_Values (OfGetIntegrationOptions oi)).2 = None ->
      (GetIntegration c id ruleID oi sent).1 = Returns (None, Some e))
  /\ (GetServiceRule c id ruleID sent).1 = Returns (None, None, Some e)
  /\ (CreateServiceRule c id rule sent).1 = Returns (None, None, Some e)
  /\ (UpdateServiceRule c id ruleID rule sent).1 = Returns (None, None, Some e)
  /\ (DeleteService c id sent).1 = Returns (Some e)
  /\ (DeleteIntegration c id ruleID sent).1 = Returns (Some e)
  /\ (DeleteServiceRule c id ruleID sent).1 = Returns (Some e)
  /\ (is_Some resp ->
      (GetService c id o sent).1 = Returns (None, Some e)
      /\ (CreateService c s sent).1 = Returns (None, Some e)
      /\ (UpdateService c s sent).1 = Returns (None, Some e)).
Proof.
  intros Hfail.
  unfold CreateIntegration, UpdateIntegration, GetIntegration, GetServiceRule,
    CreateServiceRule, UpdateServiceRule, DeleteService, DeleteIntegration,
    DeleteServiceRule, GetService, CreateService, UpdateService.
  unfold post, put, get, delete, callBind, send, callLift, callRet.
  rewrite !Hfail. cbn.
  repeat apply conj; try reflexivity.
  - destruct (query_Values (OfGetIntegrationOptions oi)) as [v err]. cbn.
    intros ->. now rewrite Hfail.
  - intros [r ->].
    destruct (query_Values (OfGetServiceOptions o)) as [v err]. now rewrite Hfail.
Qed.

(** X6: when the query encoder reports an error, [ListServices],
    [ListServicesPaginated] and [GetIntegration] return it with a nil result
    and send no request. *)
Theorem query_errors_stop_before_the_request (fuel : nat) (c : Client)
    (sent : list Request) (e : error) (o : ListServiceOptions)
    (serviceID integrationID : string) (oi : GetIntegrationOptions) :
  (forall input, (query_Values input).2 = Some e) ->
  ListServices c o sent = (Returns (None, Some e), sent)
  /\ ListServicesPaginated fuel c o sent = (Returns (NilSlice, Some e), sent)
  /\ GetIntegration c serviceID integrationID oi sent = (Returns (None, Some e), sent).
Proof.
  intros Hquery. unfold ListServices, ListServicesPaginated, GetIntegration.
  pose proof (Hquery (OfListServiceOptions o)) as Hlist.
  pose proof (Hquery (OfGetIntegrationOptions oi)) as Hget.
  destruct (query_Values (OfListServiceOptions o)) as [v err].
  destruct (query_Values (OfGetIntegrationOptions oi)) as [v' err'].
  cbn in Hlist, Hget. now subst.
Qed.

(** X7: each service and integration operation other than the paged list
    sends exactly one request, whatever the client answers: a GET, POST,
    PUT or DELETE of [/services], [/services/:id],
    [/services/:id/integrations] or [/services/:id/integrations/:id], where
    the updates take the id from the record and the gets append [?] and the
    encoded options. *)
Theorem service_and_integration_requests (c : Client) (sent : list Request)
    (id integrationID : string) (s : Service) (i : Integration)
    (o : option GetServiceOptions) (oi : GetIntegrationOptions) (ol : ListServiceOptions) :
  line <$> (CreateService c s sent).2 = (line <$> sent) ++ [(POST, "/services")]
  /\ line <$> (GetService c id o sent).2
     = (line <$> sent)
       ++ [(GET, "/services/" +:+ id +:+ "?"
                 +:+ Values_Encode (query_Values (OfGetServiceOptions o)).1)]
  /\ line <$> (UpdateService c s sent).2
     = (line <$> sent) ++ [(PUT, "/services/" +:+ Service_ID s)]
  /\ line <$> (DeleteService c id sent).2 = (line <$> sent) ++ [(DELETE, "/services/" +:+ id)]
  /\ line <$> (CreateIntegration c id i sent).2
     = (line <$> sent) ++ [(POST, "/services/" +:+ id +:+ "/integrations")]
  /\ line <$> (UpdateIntegration c id i sent).2
     = (line <$> sent)
       ++ [(PUT, "/services/" +:+ id +:+ "/integrations/" +:+ Integration_ID i)]
  /\ line <$> (DeleteIntegration c id integrationID sent).2
     = (line <$> sent)
       ++ [(DELETE, "/services/" +:+ id +:+ "/integrations/" +:+ integrationID)]
  /\ ((query_Values (OfGetIntegrationOptions oi)).2 = None ->
      line <$> (GetIntegration c id integrationID oi sent).2
      = (line <$> sent)
        ++ [(GET, "/services/" +:+ id +:+ "/integrations/" +:+ integrationID +:+ "?"
                  +:+ Values_Encode (query_Values (OfGetIntegrationOptions oi)).1)])
  /\ ((query_Values (OfListServiceOptions ol)).2 = None ->
      line <$> (ListServices c ol sent).2
      = (line <$> sent)
        ++ [(GET, "/services?"
                  +:+ Values_Encode (query_Values (OfListServiceOptions ol)).1)]).
Proof.
  unfold CreateService, GetService, UpdateService, CreateIntegration, UpdateIntegration,
    GetIntegration, ListServices, post, put, get.
  destruct (query_Values (OfGetServiceOptions o)) as [v err].
  destruct (query_Values (OfGetIntegrationOptions oi)) as [vi erri].
  destruct (query_Values (OfListServiceOptions ol)) as [vl errl].
  rewrite !sent_after_send, !fmap_app. cbn [fst snd].
  repeat split.
  - unfold DeleteService, delete, callBind, send, callRet.
    destruct (Client_do c sent _) as [resp err']. cbn. now rewrite fmap_app.
  - unfold DeleteIntegration, delete, callBind, send, callRet.
    destruct (Client_do c sent _) as [resp err']. cbn. now rewrite fmap_app.
  - intros ->. now rewrite sent_after_send, fmap_app.
  - intros ->. unfold callBind at 1, send.
    destruct (Client_do c sent _) as [resp [e|]]; cbn; [now rewrite fmap_app|].
    unfold callLift, outcomeBind.
    destruct (decodeJSON c resp (structZero : ListServiceResponse)) as [[page|e]| |];
      cbn; now rewrite fmap_app.
Qed.

(** X13: once the client has answered the request with a response and a nil
    error, [ListServices] returns the address of its result whatever the
    body is: the pointer is never nil, it holds a decoded page exactly when
    the error is nil, and a body that is not JSON gives the pointer together
    with that error, where every other operation returns nil with an
    error. *)
Theorem ListServices_returns_its_result_after_any_response (c : Client)
    (sent : list Request) (o : ListServiceOptions) (v : Values) (resp : Response) :
  query_Values (OfListServiceOptions o) = (v, None) ->
  Client_do c sent {| Request_Method := GET;
                      Request_Path := "/services?" +:+ Values_Encode v;
                      Request_Offset := None; Request_Body := None |}
  = (Some resp, None) ->
  exists p err,
    (ListServices c o sent).1 = Returns (Some p, err)
    /\ (err = None <-> exists page, p = Holds page)
    /\ (forall e, parseJSON (Response_Body resp) = Err e ->
                  p = Unfinished /\ err = Some e).
Proof.
  intros Hquery Hanswer. unfold ListServices. rewrite Hquery.
  unfold callBind, get, send. rewrite Hanswer. cbn [fst snd callLift].
  unfold decodeJSON. cbn [outcomeBind].
  destruct (parseJSON (Response_Body resp)) as [j|e] eqn:Hparse.
  - destruct (unmarshal j (structZero : ListServiceResponse)) as [page|e].
    + exists (Holds page), None. split; [reflexivity|]. split; [|discriminate].
      split; [eauto | reflexivity].
    + exists Unfinished, (Some e). split; [reflexivity|]. split; [|discriminate].
      split; [discriminate | now intros [page Hpage]].
  - exists Unfinished, (Some e). split; [reflexivity|]. split.
    + split; [discriminate | now intros [page Hpage]].
    + intros e' [= <-]. now split.
Qed.

End OperationFacts.

(* ===================================================================== *)
(** * More round trips *)
(* ===================================================================== *)

#[export] Instance int_lawful : Lawful int int_valid.
Proof.
  split.
  - intros x [Hlo Hhi]. cbn.
    assert (Hrange : ((- 2 ^ (uintBits - 1) <=? x) && (x <? 2 ^ (uintBits - 1)))%bool = true).
    { apply andb_true_iff. split; [apply Z.leb_le | apply Z.ltb_lt]; assumption. }
    now rewrite Hrange.
  - intros x _ Hx. cbn in Hx. now apply Z.eqb_eq in Hx.
Qed.

#[export] Instance int_nonnull : NonNull int int_valid.
Proof. intros x _. discriminate. Qed.

Section IntegrationRoundTrip.
Context {D : Declarations} {L : DeclarationLaws D}.

Lemma Integration_envelope_unwraps (c : Client) (i : Integration) (resp : Response) :
  Integration_valid i ->
  parseJSON (Response_Body resp) = Ok (envelope "integration" (marshal i)) ->
  getIntegrationFromResponse c (Some resp) None = Returns (Some i, None).
Proof.
  intros Hvalid Hbody.
  unfold getIntegrationFromResponse, decodeJSON. rewrite Hbody. unfold envelope.
  cbn [outcomeBind marshal struct_marshal unmarshal map_unmarshal decodeMap
       struct_unmarshal zero].
  rewrite (Integration_roundtrip i Hvalid).
  cbn [decodeMap]. now rewrite lookup_insert_eq.
Qed.

Lemma Service_envelope_unwraps (c : Client) (s : Service) (resp : Response) :
  Service_valid s ->
  parseJSON (Response_Body resp) = Ok (envelope "service" (marshal s)) ->
  getServiceFromResponse c (Some resp) None = Returns (Some s, None).
Proof.
  intros Hvalid Hbody.
  unfold getServiceFromResponse, decodeJSON. rewrite Hbody. unfold envelope.
  cbn [outcomeBind marshal struct_marshal unmarshal map_unmarshal decodeMap
       struct_unmarshal zero].
  rewrite (Service_roundtrip s Hvalid).
  cbn [decodeMap]. now rewrite lookup_insert_eq.
Qed.


End IntegrationRoundTrip.

Section RuleRoundTrip.
Context {D : Declarations} {R : RuleLaws D}.

Lemma ServiceRuleActions_roundtrip (a : ServiceRuleActions) :
  ServiceRuleActions_valid a -> structDecode (structMembers a) structZero = Ok a.
Proof.
  destruct a. unfold ServiceRuleActions_valid.
  intros (Hannotate & Haction & Hextractions & Hpriority & Hseverity & Hsuppress & Hsuspend).
  cbn [structDecode structMembers ServiceRuleActions_decode ServiceRuleActions_encode].
  repeat (eapply result_bind_ok; [decode_field|]).
  reflexivity.
Qed.

#[export] Instance ServiceRuleActions_lawful
  : Lawful ServiceRuleActions ServiceRuleActions_valid :=
  struct_lawful _ ServiceRuleActions_roundtrip.

Lemma ServiceRule_roundtrip (r : ServiceRule) :
  ServiceRule_valid r -> structDecode (structMembers r) structZero = Ok r.
Proof.
  destruct r. unfold ServiceRule_valid.
  intros (Hconditions & Hframe & Hposition & Hactions).
  cbn [structDecode structMembers ServiceRule_decode ServiceRule_encode].
  repeat (eapply result_bind_ok; [decode_field|]).
  reflexivity.
Qed.

Lemma ServiceRule_envelope_unwraps (c : Client) (r : ServiceRule) (resp : Response) :
  ServiceRule_valid r ->
  parseJSON (Response_Body resp) = Ok (envelope "rule" (marshal r)) ->
  getServiceRuleFromResponse c (Some resp) None = Returns (Some r, Some resp, None).
Proof.
  intros Hvalid Hbody.
  unfold getServiceRuleFromResponse, decodeJSON. rewrite Hbody. unfold envelope.
  cbn [outcomeBind marshal struct_marshal unmarshal map_unmarshal decodeMap
       struct_unmarshal zero].
  rewrite (ServiceRule_roundtrip r Hvalid).
  cbn [decodeMap]. now rewrite lookup_insert_eq.
Qed.


End RuleRoundTrip.

(* ===================================================================== *)
(** * What the results look like *)
(* ===================================================================== *)

Section ResultShapes.
Context {D : Declarations}.

(** X10: whatever the response and the error of the request, a helper that
    returns gives either a resource and a nil error, or a nil resource and
    an error: never both and never neither.  The rule helper returns the
    response exactly when it returns a rule. *)
Theorem helpers_return_a_resource_or_an_error (c : Client) (resp : option Response)
    (err : option error) :
  (forall s e, getServiceFromResponse c resp err = Returns (s, e) ->
               (is_Some s /\ e = None) \/ (s = None /\ is_Some e))
  /\ (forall i e, getIntegrationFromResponse c resp err = Returns (i, e) ->
                  (is_Some i /\ e = None) \/ (i = None /\ is_Some e))
  /\ (forall r back e, getServiceRuleFromResponse c resp err = Returns (r, back, e) ->
                       (is_Some r /\ back = resp /\ e = None)
                       \/ (r = None /\ back = None /\ is_Some e)).
Proof.
  unfold getServiceFromResponse, getIntegrationFromResponse, getServiceRuleFromResponse,
    decodeJSON.
  repeat split.
  - intros s e.
    destruct err as [e'|]; [destruct resp; [|discriminate]; intros [= <- <-]; eauto|].
    destruct resp as [r|]; [|discriminate]. cbn [outcomeBind].
    destruct (match parseJSON (Response_Body r) with Ok j => _ | Err e0 => _ end)
      as [target|dErr]; [|intros [= <- <-]; eauto].
    destruct (target !! "service"); intros [= <- <-]; eauto.
  - intros i e.
    destruct err as [e'|]; [intros [= <- <-]; eauto|].
    destruct resp as [r|]; [|discriminate]. cbn [outcomeBind].
    destruct (match parseJSON (Response_Body r) with Ok j => _ | Err e0 => _ end)
      as [target|dErr]; [|intros [= <- <-]; eauto].
    destruct (target !! "integration"); intros [= <- <-]; eauto.
  - intros ru back e.
    destruct err as [e'|]; [intros [= <- <- <-]; eauto|].
    destruct resp as [r|]; [|discriminate]. cbn [outcomeBind].
    destruct (match parseJSON (Response_Body r) with Ok j => _ | Err e0 => _ end)
      as [target|dErr]; [|intros [= <- <- <-]; eauto].
    destruct (target !! "rule"); intros [= <- <- <-]; eauto.
Qed.

(** The accumulator of [pagedGet] keeps what every call of the handler
    keeps. *)
Lemma pagedGet_keeps {S} (P : S -> Prop) (c : Client) (path : string)
    (handler : option Response -> S -> outcome (S * (APIListObject * option error))) :
  (forall resp acc acc' state err,
     handler resp acc = Returns (acc', (state, err)) -> P acc -> P acc') ->
  forall fuel offset acc sent acc' err,
    P acc ->
    (pagedGet fuel c path handler offset acc sent).1 = Returns (acc', err) ->
    P acc'.
Proof.
  intros Hstep. induction fuel as [|fuel IH]; intros offset acc sent acc' err Hacc.
  - discriminate.
  - cbn [pagedGet]. unfold callBind at 1, send.
    destruct (Client_do c sent _) as [response [e|]]; [now intros [= <- <-]|].
    unfold callBind at 1, callLift at 1.
    destruct (handler response acc) as [[acc1 [state [e|]]]| |] eqn:Hhandler;
      try discriminate.
    + intros [= <- <-]. eapply Hstep; eassumption.
    + pose proof (Hstep _ _ _ _ _ Hhandler Hacc) as Hacc1.
      destruct (APIListObject_More state); [now apply IH|].
      now intros [= <- <-].
Qed.

(** X11: what [ListServiceRules] returns is either nil with an error, or a
    response with a nil error that carries the rules and nothing else: its
    [Offset], [Limit] and [Total] are 0 and its [More] is false whatever the
    pages said, and its [Rules] are never nil, also when no page had a rule. *)
Theorem ListServiceRules_result_shape (fuel : nat) (c : Client) (serviceID : string)
    (sent : list Request) (result : option ListServiceRulesResponse) (err : option error) :
  (ListServiceRules fuel c serviceID sent).1 = Returns (result, err) ->
  (result = None /\ is_Some err)
  \/ (err = None
      /\ exists rules,
           result = Some {| ListServiceRulesResponse_Offset := 0;
                            ListServiceRulesResponse_Limit := 0;
                            ListServiceRulesResponse_More := false;
                            ListServiceRulesResponse_Total := 0;
                            ListServiceRulesResponse_Rules := Slice rules |}).
Proof.
  unfold ListServiceRules, callBind.
  destruct (pagedGet fuel c _ (rulesHandler c) 0%N (Slice []) sent)
    as [[[rules [e|]]| |] sent'] eqn:Hrun; cbn; try discriminate.
  - intros [= <- <-]. left. eauto.
  - intros [= <- <-]. right. split; [reflexivity|].
    assert (Hkeeps : rules <> NilSlice).
    { apply (pagedGet_keeps (fun acc => acc <> NilSlice) c
               ("/services/" +:+ serviceID +:+ "/rules") (rulesHandler c))
        with (fuel := fuel) (offset := 0%N) (acc := Slice []) (sent := sent) (err := None).
      - intros resp acc acc' state err'. unfold rulesHandler, decodeJSON.
        destruct resp as [r|]; [|discriminate]. cbn [outcomeBind].
        destruct (match parseJSON (Response_Body r) with Ok j => _ | Err e0 => _ end)
          as [page|dErr]; intros [= <- _ _] Hacc; [|exact Hacc].
        unfold append. destruct (elems (ListServiceRulesResponse_Rules page));
          [exact Hacc | discriminate].
      - discriminate.
      - now rewrite Hrun. }
    destruct rules as [|rules]; [contradiction|]. now exists rules.
Qed.

End ResultShapes.

Section MoreShapes.
Context {D : Declarations} {Q : QueryEncoder QueryInput}.

(** X12: what [ListServicesPaginated] returns with an error is nil, and what
    it returns is never an empty slice that is not nil: without services on
    any page the result is nil, where [ListServiceRules] returns an empty
    list of rules. *)
Theorem ListServicesPaginated_result_shape (fuel : nat) (c : Client)
    (o : ListServiceOptions) (sent : list Request) (services : slice Service)
    (err : option error) :
  (ListServicesPaginated fuel c o sent).1 = Returns (services, err) ->
  (is_Some err -> services = NilSlice)
  /\ (services = NilSlice \/ elems services <> []).
Proof.
  unfold ListServicesPaginated.
  destruct (query_Values (OfListServiceOptions o)) as [v [e|]].
  - intros [= <- <-]. split; [reflexivity | now left].
  - unfold callBind.
    destruct (pagedGet fuel c _ (servicesHandler c) 0%N NilSlice sent)
      as [[[acc [e|]]| |] sent'] eqn:Hrun; cbn; try discriminate.
    + intros [= <- <-]. split; [reflexivity | now left].
    + intros [= <- <-]. split; [now intros [e He]|].
      apply (pagedGet_keeps (fun acc => acc = NilSlice \/ elems acc <> []) c
               ("/services?" +:+ Values_Encode v) (servicesHandler c))
        with (fuel := fuel) (offset := 0%N) (acc := NilSlice) (sent := sent) (err := None).
      * intros resp acc0 acc' state err'. unfold servicesHandler, decodeJSON.
        destruct resp as [r|]; [|discriminate]. cbn [outcomeBind].
        destruct (match parseJSON (Response_Body r) with Ok j => _ | Err e0 => _ end)
          as [page|dErr]; intros [= <- _ _] Hacc; [|exact Hacc].
        unfold append. destruct (elems (ListServiceResponse_Services page)) as [|x xs];
          [exact Hacc|].
        right. cbn [elems]. now destruct (elems acc0).
      * now left.
      * now rewrite Hrun.
Qed.

End MoreShapes.


(* ===================================================================== *)
(** * The operations on an answered request *)
(* ===================================================================== *)

Section AnsweredOperations.
Context {D : Declarations} {Q : QueryEncoder QueryInput}.
Context {L : DeclarationLaws D} {R : RuleLaws D}.


End AnsweredOperations.

(* ===================================================================== *)
(** * The further statements at concrete inputs *)
(* ===================================================================== *)

Lemma Sample_raw_lawful_nonnull :
  @Lawful json Sample.raw_unmarshal Sample.raw_marshal (fun j => j <> JNull).
Proof.
  split; [reflexivity|].
  intros [] Hj Hempty; cbn in Hempty; try discriminate. now destruct Hj.
Qed.

Lemma Sample_raw_nonnull : @NonNull json Sample.raw_marshal (fun j => j <> JNull).
Proof. intros j Hj. exact Hj. Qed.

Lemma Sample_rule_laws : RuleLaws Sample.declarations.
Proof.
  refine (Build_RuleLaws Sample.declarations
            (fun j => j <> JNull) _ _ (fun j => j <> JNull) _ _
            (fun j => j <> JNull) _ _ (fun j => j <> JNull) _ _
            (fun j => j <> JNull) _ _ (fun j => j <> JNull) _ _);
    first [exact Sample_raw_lawful_nonnull | exact Sample_raw_nonnull].
Defined.

(** X1 on bodies with the root key twice: the later member is returned. *)
Lemma later_root_member_wins :
  getServiceFromResponse (Sample.scripted []) (Some Sample.serviceTwice) None
  = Returns (Some Sample.web, None)
  /\ getIntegrationFromResponse (Sample.scripted []) (Some Sample.integrationTwice) None
     = Returns (Some Sample.mail, None)
  /\ getServiceRuleFromResponse (Sample.scripted []) (Some Sample.ruleTwice) None
     = Returns (Some (Sample.ruleOf "R1"), Some Sample.ruleTwice, None).
Proof.
  split; [|split].
  - destruct (proj1 (last_root_member_is_returned (Sample.scripted []) Sample.serviceTwice
                       _ _ eq_refl) _ eq_refl eq_refl) as (s & Hs & Hresult).
    injection Hs as <-. exact Hresult.
  - destruct (proj1 (proj2 (last_root_member_is_returned (Sample.scripted [])
                              Sample.integrationTwice _ _ eq_refl)) _ eq_refl eq_refl)
      as (i & Hi & Hresult).
    injection Hi as <-. exact Hresult.
  - destruct (proj2 (proj2 (last_root_member_is_returned (Sample.scripted [])
                              Sample.ruleTwice _ _ eq_refl)) _ eq_refl eq_refl)
      as (r & Hr & Hresult).
    injection Hr as <-. exact Hresult.
Defined.

(** X2 on bodies with [null] under the root key. *)
Lemma null_root_member_on_samples :
  getServiceFromResponse (Sample.scripted []) (Some Sample.nullService) None
  = Returns (Some structZero, None)
  /\ getIntegrationFromResponse (Sample.scripted []) (Some Sample.nullIntegration) None
     = Returns (Some structZero, None)
  /\ getServiceRuleFromResponse (Sample.scripted []) (Some Sample.nullRule) None
     = Returns (Some structZero, Some Sample.nullRule, None).
Proof.
  split; [|split].
  - exact (proj1 (null_root_member_gives_the_zero_resource (Sample.scripted [])
                    Sample.nullService _ eq_refl) _ eq_refl eq_refl).
  - exact (proj1 (proj2 (null_root_member_gives_the_zero_resource (Sample.scripted [])
                           Sample.nullIntegration _ eq_refl)) _ eq_refl eq_refl).
  - exact (proj2 (proj2 (null_root_member_gives_the_zero_resource (Sample.scripted [])
                           Sample.nullRule _ eq_refl)) _ eq_refl eq_refl).
Defined.

(** X3 on bodies whose only member is the root key in other letters. *)
Lemma capital_root_key_is_missing :
  getServiceFromResponse (Sample.scripted []) (Some Sample.capitalService) None
  = Returns (None, Some (Errorf "JSON response does not have service field"))
  /\ getIntegrationFromResponse (Sample.scripted []) (Some Sample.capitalIntegration) None
     = Returns (None, Some (Errorf "JSON response does not have integration field"))
  /\ getServiceRuleFromResponse (Sample.scripted []) (Some Sample.capitalRule) None
     = Returns (None, None, Some (Errorf "JSON response does not have rule field")).
Proof.
  split; [|split].
  - exact (proj1 (root_key_is_matched_exactly (Sample.scripted [])
                    Sample.capitalService _ eq_refl) _ eq_refl eq_refl).
  - exact (proj1 (proj2 (root_key_is_matched_exactly (Sample.scripted [])
                           Sample.capitalIntegration _ eq_refl)) _ eq_refl eq_refl).
  - exact (proj2 (proj2 (root_key_is_matched_exactly (Sample.scripted [])
                           Sample.capitalRule _ eq_refl)) _ eq_refl eq_refl).
Defined.

(** X4 on a service envelope that also carries a total. *)
Lemma total_beside_the_service_fails :
  (exists dErr,
     getServiceFromResponse (Sample.scripted []) (Some Sample.serviceWithTotal) None
     = Returns (None, Some (Errorf ("Could not decode JSON response: " +:+ Error dErr))))
  /\ (exists dErr,
        getServiceRuleFromResponse (Sample.scripted []) (Some Sample.serviceWithTotal) None
        = Returns (None, None,
                   Some (Errorf ("Could not decode JSON response: " +:+ Error dErr))))
  /\ getIntegrationFromResponse (Sample.scripted []) (Some Sample.serviceWithTotal) None
     = Returns (None, Some (Errorf "Could not decode JSON response: <nil>")).
Proof.
  apply (other_members_must_decode_too (Sample.scripted []) Sample.serviceWithTotal
           _ "total" (JNum 5) eq_refl).
  - right. left. reflexivity.
  - reflexivity.
Defined.

(** X5 on a client whose one answer is a response together with an error. *)
Lemma refused_requests_return_the_error :
  (DeleteService Sample.failing "S1" []).1 = Returns (Some Sample.refused)
  /\ (UpdateIntegration Sample.failing "S1" Sample.mail []).1
     = Returns (None, Some Sample.refused)
  /\ (CreateServiceRule Sample.failing "S1" (Some (Sample.ruleOf "R1")) []).1
     = Returns (None, None, Some Sample.refused)
  /\ (GetService (Q := Sample.query) Sample.failing "S1" None []).1
     = Returns (None, Some Sample.refused).
Proof.
  destruct (request_errors_are_returned_unchanged (Q := Sample.query) Sample.failing []
              (Some Sample.emptyObject) Sample.refused "S1" "R1" Sample.web Sample.mail
              (Some (Sample.ruleOf "R1")) None
              {| GetIntegrationOptions_Includes := NilSlice |}
              (fun _ => eq_refl))
    as (_ & Hupdate & _ & _ & Hcreate & _ & Hdelete & _ & _ & Hservice).
  destruct (Hservice (ex_intro _ Sample.emptyObject eq_refl)) as (Hget & _ & _).
  repeat split; assumption.
Defined.

(** X6 with an encoder that fails on every input: nothing is sent. *)
Lemma failing_encoder_sends_nothing :
  ListServices (Q := Sample.failingQuery) (Sample.scripted []) Sample.noOptions []
  = (Returns (None, Some Sample.failure), [])
  /\ ListServicesPaginated (Q := Sample.failingQuery) 3 (Sample.scripted [])
       Sample.noOptions []
     = (Returns (NilSlice, Some Sample.failure), [])
  /\ GetIntegration (Q := Sample.failingQuery) (Sample.scripted []) "S1" "I1"
       {| GetIntegrationOptions_Includes := NilSlice |} []
     = (Returns (None, Some Sample.failure), []).
Proof.
  apply (query_errors_stop_before_the_request (Q := Sample.failingQuery) 3
           (Sample.scripted []) [] Sample.failure Sample.noOptions "S1" "I1"
           {| GetIntegrationOptions_Includes := NilSlice |}).
  intros input. reflexivity.
Defined.

(** X13 on a body that is not JSON and on the first page of the scenario. *)
Lemma ListServices_on_html_and_on_a_page :
  (ListServices (Q := Sample.query) (Sample.scripted [(Some Sample.notJSON, None)])
     Sample.noOptions []).1
  = Returns (Some Unfinished, Some json_SyntaxError)
  /\ (ListServices (Q := Sample.query) (Sample.scripted [Sample.ok Sample.page1Text])
        Sample.noOptions []).1
     = Returns (Some (Holds Sample.page1), None).
Proof.
  split.
  - destruct (ListServices_returns_its_result_after_any_response (Q := Sample.query)
                (Sample.scripted [(Some Sample.notJSON, None)]) [] Sample.noOptions
                _ Sample.notJSON eq_refl eq_refl)
      as (p & err & Hresult & _ & Hbody).
    destruct (Hbody _ eq_refl) as [-> ->]. exact Hresult.
  - destruct (ListServices_returns_its_result_after_any_response (Q := Sample.query)
                (Sample.scripted [Sample.ok Sample.page1Text]) [] Sample.noOptions
                _ _ eq_refl eq_refl)
      as (p & err & Hresult & _ & _).
    change (Returns (Some (Holds Sample.page1), None) = Returns (Some p, err)) in Hresult.
    injection Hresult as <- <-. reflexivity.
Defined.



(** X11 on a single page without rules that announces a total of 9. *)
Lemma no_rules_give_an_empty_list :
  exists response,
    (ListServiceRules 3 (Sample.scripted [Sample.ok Sample.noRulesText]) "S1" []).1
    = Returns (Some response, None)
    /\ ListServiceRulesResponse_Rules response = Slice []
    /\ ListServiceRulesResponse_Limit response = 0%N
    /\ ListServiceRulesResponse_Total response = 0%N.
Proof.
  destruct (ListServiceRules_result_shape 3
              (Sample.scripted [Sample.ok Sample.noRulesText]) "S1" [] _ _ eq_refl)
    as [[Hnil _] | [_ [rules Hrules]]]; [discriminate|].
  eexists. split; [reflexivity|]. repeat split.
Defined.

(** X12 on a single page without services, and on a page followed by a
    body that is not JSON: the result is nil both times. *)
Lemma no_services_give_nil :
  (exists services,
     (ListServicesPaginated (Q := Sample.query) 3
        (Sample.scripted [Sample.ok Sample.noServicesText]) Sample.noOptions []).1
     = Returns (services, None)
     /\ services = NilSlice)
  /\ (exists services e,
        (ListServicesPaginated (Q := Sample.query) 3
           (Sample.scripted [Sample.ok Sample.page1Text; (Some Sample.notJSON, None)])
           Sample.noOptions []).1
        = Returns (services, Some e)
        /\ services = NilSlice).
Proof.
  split.
  - eexists. split; [reflexivity|].
    destruct (proj2 (ListServicesPaginated_result_shape (Q := Sample.query) 3
                       (Sample.scripted [Sample.ok Sample.noServicesText])
                       Sample.noOptions [] _ _ eq_refl)) as [Hnil | Hitems];
      [exact Hnil | now destruct Hitems].
  - do 2 eexists. split; [reflexivity|].
    apply (proj1 (ListServicesPaginated_result_shape (Q := Sample.query) 3
                    (Sample.scripted [Sample.ok Sample.page1Text;
                                      (Some Sample.notJSON, None)])
                    Sample.noOptions [] _ _ eq_refl)).
    now eexists.
Defined.

